(** * queimadas_monitor: risk assessment, data collection and aggregation

    A shallow embedding of the Python modules
      - [config.py]                       (constants),
      - [risk_assessment/assessor.py]     (module [Assessor]),
      - [data_collection/collector.py]    (module [Collector]),
      - [app.py], the two aggregation paths (module [App]),
    followed by the properties proved about them.

    Conventions.  A pandas cell read from a CSV file is a [cell]: null
    (None, NaN, pd.NA, NaT), a float or a str.  A row ([pd.Series]) is a
    finite map from column names to cells, so ['k' in foco] is
    [foco !! k <> None].  Python floats are [pyfloat]: NaN, the two
    infinities, or a finite value held as a rational (every finite double
    is one, and [>=] on finite doubles is [>=] on their values).
    Functions of the interpreter and of third-party libraries ([float] on
    a str, shapely's [Point] and [within], pandas' CSV reader) are the
    fields of the classes [PyRuntime], [Shapely] and [Pandas]. *)

From Stdlib Require Import ZArith QArith Qabs Ascii String List Bool Lia.
From Stdlib Require Import Strings.Byte DecimalString Sorting.Sorted Sorting.Permutation.
From stdpp Require Import base option list gmap strings sorting.

Local Open Scope string_scope.
Local Open Scope Z_scope.
Local Open Scope list_scope.

(** ** Python values *)

Inductive pyfloat :=
| Fnan
| Finf (negative : bool)
| Ffin (q : Q).

(** [a >= b] on floats; every comparison with NaN is False. *)
Definition float_ge (a b : pyfloat) : bool :=
  match a, b with
  | Fnan, _ | _, Fnan => false
  | Finf false, _ => true
  | Finf true, Finf true => true
  | Finf true, _ => false
  | Ffin _, Finf neg => neg
  | Ffin x, Ffin y => Qle_bool y x
  end.

(** [bool(x)] for a float: only zero is falsy (NaN is truthy). *)
Definition float_truthy (a : pyfloat) : bool :=
  match a with
  | Ffin q => negb (Qeq_bool q (0 # 1))
  | _ => true
  end.

Inductive cell :=
| CNull
| CNum (f : pyfloat)
| CStr (s : string).

(** [pd.notna] / [pd.isna] on a scalar. *)
Definition notna (c : cell) : bool :=
  match c with
  | CNull | CNum Fnan => false
  | _ => true
  end.

Definition isna (c : cell) : bool := negb (notna c).

(** Truth value of a Python object, as [if determined_biome:] takes it. *)
Definition truthy (c : cell) : bool :=
  match c with
  | CNull => false
  | CNum f => float_truthy f
  | CStr s => negb (String.eqb s "")
  end.

(** [x in xs] for a list of str: [==] against each element in turn;
    a float never equals a str. *)
Definition cell_in (c : cell) (xs : list string) : bool :=
  match c with
  | CStr s => existsb (String.eqb s) xs
  | _ => false
  end.

(** A cell of a table as [load_data] returns it: a [pd.Timestamp] (held
    as its count of nanoseconds) in the parsed date column, or a scalar. *)
Inductive lcell :=
| Stamp (t : Z)
| Plain (c : cell).

(** [s in r] for two str. *)
Fixpoint is_substring (s r : string) : bool :=
  String.prefix s r ||
  match r with
  | EmptyString => false
  | String _ r' => is_substring s r'
  end.

(** *** Formatting a float with [:.2f]

    The exact value is rounded to the nearest hundredth, ties to even. *)
Definition round_half_even (q : Q) : Z :=
  let n := Qnum q in
  let d := Z.pos (Qden q) in
  let fl := n / d in
  let r := n mod d in
  if 2 * r <? d then fl
  else if d <? 2 * r then fl + 1
  else if Z.even fl then fl else fl + 1.

Definition dec (z : Z) : string := NilZero.string_of_uint (N.to_uint (Z.to_N z)).

Definition two_digits (z : Z) : string :=
  if z <? 10 then "0" +:+ dec z else dec z.

Definition format_2f (f : pyfloat) : string :=
  match f with
  | Fnan => "nan"
  | Finf false => "inf"
  | Finf true => "-inf"
  | Ffin q =>
      let c := round_half_even (Qabs q * (100 # 1))%Q in
      (if Qle_bool (0 # 1) q then "" else "-")
        +:+ dec (c / 100) +:+ "." +:+ two_digits (c mod 100)
  end.

(** ** External functions *)

(** [float(s)] for a str [s]: [None] stands for [ValueError]. *)
Class PyRuntime := {
  float_of_str : string -> option pyfloat
}.

(** shapely: [Point(x, y)] from two cells ([None]: the constructor
    raises) and [point.within(geometry)]. *)
Class Shapely := {
  geometry : Type;
  point : Type;
  Point : cell -> cell -> option point;
  within : point -> geometry -> bool
}.

(** pandas: the number of data rows [pd.read_csv] finds after the header
    in a file of the given content; [None] when it raises (for instance
    [EmptyDataError] on a file without a header). *)
Class Pandas := {
  read_csv_rows : list Byte.byte -> option nat
}.

(** ** Effects

    Stateful code is written in a state monad.  The assessor threads the
    trace of the spatial work it does: [get_biome_from_lat_lon] is
    recorded when it is entered, and each [point.within] test with the
    position of the polygon tested. *)
Definition State (S A : Type) : Type := S -> A * S.

Definition ret {S A} (a : A) : State S A := fun s => (a, s).

Definition bind {S A B} (m : State S A) (k : A -> State S B) : State S B :=
  fun s => let (a, s') := m s in k a s'.

Notation "'do' x <- m ; k" := (bind m (fun x => k))
  (at level 10, x pattern, m at level 100, k at level 200).

Fixpoint mapM {S A B} (f : A -> State S B) (xs : list A)
    : State S (list B) :=
  match xs with
  | [] => ret []
  | x :: rest => do y <- f x; do ys <- mapM f rest; ret (y :: ys)
  end.

Inductive event :=
| Lookup (lat lon : cell)
| PolygonTest (i : nat).

Definition W : Type -> Type := State (list event).

Definition tell (e : event) : W unit := fun t => (tt, t ++ [e]).

(** ** Data frames

    A [pd.DataFrame] is its column index, in order, and its rows; each row
    maps the column names to its values.  Rows are addressed by
    position. *)
Record frame (V : Type) := {
  columns : list string;
  rows : list (gmap string V)
}.
Arguments columns {V} _.
Arguments rows {V} _.

Definition has_column {V} (df : frame V) (c : string) : bool :=
  bool_decide (c ∈ columns df).

(** [df.empty]: some axis has length 0. *)
Definition df_empty {V} (df : frame V) : bool :=
  match columns df, rows df with
  | [], _ | _, [] => true
  | _, _ => false
  end.

Definition add_column (c : string) (cols : list string) : list string :=
  if bool_decide (c ∈ cols) then cols else cols ++ [c].

(** [df[c] = v] for one scalar [v]. *)
Definition set_column {V} (c : string) (v : V) (df : frame V) : frame V :=
  {| columns := add_column c (columns df);
     rows := (fun r : gmap string V => <[c := v]> r) <$> rows df |}.

(** [df[c] = values], one value per row. *)
Definition assign_column {V} (c : string) (values : list V) (df : frame V)
    : frame V :=
  {| columns := add_column c (columns df);
     rows := zip_with (fun (r : gmap string V) v => <[c := v]> r)
                      (rows df) values |}.

Definition map_frame {U V} (f : U -> V) (df : frame U) : frame V :=
  {| columns := columns df; rows := (fun r : gmap string U => f <$> r) <$> rows df |}.

(** The body of [load_data] in app.py (reading the CSV with the encoding
    fallback, renaming the date and coordinate columns, [pd.to_datetime]
    and [pd.to_numeric]) as a function of the content of the file;
    [None] when it returns [None]. *)
Class Loader := {
  load_data_body : list Byte.byte -> option (frame lcell)
}.

(** ** config.py *)

Module Config.

Definition CSV_BASE_URL : string :=
  "https://dataserver-coids.inpe.br/queimadas/queimadas/focos/csv/diario/Brasil/".

Definition CSV_10MIN_BASE_URL : string :=
  "https://dataserver-coids.inpe.br/queimadas/queimadas/focos/csv/10min/".

Definition RAW_DATA_DIR : string := "output_data/raw/".

Definition RISK_FRP_THRESHOLD : pyfloat := Ffin (75 # 1).

(** [RISK_FRP_THRESHOLD / 2], exact in binary floating point. *)
Definition RISK_FRP_THRESHOLD_half : pyfloat := Ffin (75 # 2).

(** [str(RISK_FRP_THRESHOLD)], as an f-string prints it. *)
Definition RISK_FRP_THRESHOLD_str : string := "75.0".

Definition SENSITIVE_BIOMES : list string :=
  ["Amazônia"; "Mata Atlântica"; "Cerrado"; "Pantanal"].

(** The dict [RISK_LEVELS], in insertion order. *)
Definition RISK_LEVELS : list (string * Z) :=
  [("Baixo", 0); ("Médio", 1); ("Alto", 2); ("Crítico", 3)].

Definition BIOMES_FILE_PATH : string := "geodata/biomas_5000.json".

End Config.

(** ** risk_assessment/assessor.py *)

Module Assessor.
Import Config.

(** One row of the biomes GeoDataFrame: its geometry and the value of the
    [nom_bioma] column. *)
Record biome_row `{Shapely} := {
  row_geometry : geometry;
  row_name : string
}.

(** The module global [BIOMES_GDF]: [None] before loading, else the rows
    in file order. *)
Definition biomes_gdf `{Shapely} : Type := option (list biome_row).

Definition gdf_unusable `{Shapely} (g : biomes_gdf) : bool :=
  match g with
  | None | Some [] => true
  | Some (_ :: _) => false
  end.

(** The [for index, row in BIOMES_GDF.iterrows()] loop. *)
Fixpoint iterrows_within `{Shapely} (p : point) (i : nat)
    (rows : list biome_row) : W (option string) :=
  match rows with
  | [] => ret None
  | row :: rest =>
      do _ <- tell (PolygonTest i);
      if within p (row_geometry row) then ret (Some (row_name row))
      else iterrows_within p (S i) rest
  end.

Definition get_biome_from_lat_lon `{Shapely} (g : biomes_gdf)
    (lat lon : cell) : W (option string) :=
  do _ <- tell (Lookup lat lon);
  if gdf_unusable g then ret None
  else if isna lat || isna lon then ret None
  else
    match Point lon lat with
    | Some p => iterrows_within p 0 (default [] g)
    | None => ret None   (* caught by [except Exception] *)
    end.

Definition geo_reason (b : string) : string :=
  "Bioma determinado por geolocalização: " +:+ b.

Definition frp_reason (v : pyfloat) : string :=
  "FRP elevado (" +:+ format_2f v +:+ " MW >= " +:+ RISK_FRP_THRESHOLD_str
    +:+ " MW)".

Definition sensitive_reason (b : string) : string :=
  "Bioma sensível (" +:+ b +:+ ")".

Definition generic_reason : string :=
  "Critério de risco atingido (detalhe não especificado)".

Definition none_reason : string :=
  "Nenhum critério de risco específico atingido".

(** ['k' in foco and pd.notna(foco['k'])]. *)
Definition has_notna (foco : gmap string cell) (k : string) : bool :=
  match foco !! k with
  | Some c => notna c
  | None => false
  end.

(** [float(foco['frp'])]; [None] is the [ValueError] of the [try].  The
    call is guarded by [pd.notna], so the null case is never reached. *)
Definition float_of_cell `{PyRuntime} (c : cell) : option pyfloat :=
  match c with
  | CNull => Some Fnan
  | CNum f => Some f
  | CStr s => float_of_str s
  end.

(** "Determinar o bioma": the biome and the reasons recorded so far. *)
Definition determine_biome `{Shapely} (g : biomes_gdf)
    (foco : gmap string cell) : W (cell * list string) :=
  if has_notna foco "bioma" then ret (default CNull (foco !! "bioma"), [])
  else if has_notna foco "lat" && has_notna foco "lon" then
    do b <- get_biome_from_lat_lon g (default CNull (foco !! "lat"))
                                     (default CNull (foco !! "lon"));
    match b with
    | Some s =>
        if truthy (CStr s) then ret (CStr s, [geo_reason s])
        else ret (CStr s, [])
    | None => ret (CNull, [])
    end
  else ret (CNull, []).

(** "Critério 1: FRP", from level 0. *)
Definition criterio_frp `{PyRuntime} (foco : gmap string cell)
    (razoes : list string) : Z * list string :=
  if has_notna foco "frp" then
    match float_of_cell (default CNull (foco !! "frp")) with
    | Some frp_valor =>
        if float_ge frp_valor RISK_FRP_THRESHOLD then
          (Z.max 0 2, razoes ++ [frp_reason frp_valor])
        else if float_ge frp_valor RISK_FRP_THRESHOLD_half then
          (Z.max 0 1, razoes)
        else (0, razoes)
    | None => (0, razoes)
    end
  else (0, razoes).

(** "Critério 2: Bioma Sensível". *)
Definition criterio_bioma (determined_biome : cell) (nivel : Z)
    (razoes : list string) : Z * list string :=
  if truthy determined_biome then
    match determined_biome with
    | CStr b =>
        if cell_in determined_biome SENSITIVE_BIOMES then
          let razoes' :=
            if negb (existsb (is_substring (geo_reason b)) razoes)
            then razoes ++ [sensitive_reason b] else razoes in
          if (2 <=? nivel) && cell_in determined_biome ["Amazônia"; "Pantanal"]
          then (Z.max nivel 3, razoes')
          else (Z.max nivel 1, razoes')
        else (nivel, razoes)
    | _ => (nivel, razoes)
    end
  else (nivel, razoes).

Definition criticidade_label (nivel : Z) : string :=
  if nivel =? 3 then "Crítico"
  else if nivel =? 2 then "Alto"
  else if nivel =? 1 then "Médio"
  else "Baixo".

(** The closing [if not razoes and nivel > 0 ... elif not razoes and
    nivel == 0 ...]. *)
Definition fallback_reason (nivel : Z) (razoes : list string) : list string :=
  match razoes with
  | [] =>
      if 0 <? nivel then [generic_reason]
      else if nivel =? 0 then [none_reason]
      else []
  | _ => razoes
  end.

(** Level and reasons before the label is chosen and the fallback reason
    is appended. *)
Definition assess_core `{PyRuntime} `{Shapely} (g : biomes_gdf)
    (foco : gmap string cell) : W (cell * Z * list string) :=
  do (determined_biome, razoes0) <- determine_biome g foco;
  let '(nivel1, razoes1) := criterio_frp foco razoes0 in
  let '(nivel2, razoes2) := criterio_bioma determined_biome nivel1 razoes1 in
  ret (determined_biome, nivel2, razoes2).

Definition assess_foco_criticidade `{PyRuntime} `{Shapely} (g : biomes_gdf)
    (foco : gmap string cell) : W (string * list string) :=
  do (_, nivel, razoes) <- assess_core g foco;
  ret (criticidade_label nivel, fallback_reason nivel razoes).

(** A value of the enriched frame: a cell of the input, or the list of
    reasons held in [razoes_criticidade]. *)
Inductive ecell :=
| Keep (c : cell)
| Reasons (l : list string).

Definition scalar (v : option ecell) : cell :=
  match v with
  | Some (Keep c) => c
  | _ => CNull
  end.

(** [if 'c' not in df.columns: df['c'] = pd.NA]. *)
Definition ensure_column (c : string) (df : frame cell) : frame cell :=
  if has_column df c then df else set_column c CNull df.

Definition biome_cell (b : option string) : ecell :=
  match b with
  | Some s => Keep (CStr s)
  | None => Keep CNull
  end.

(** The lambda applied per row for [determined_biome_geo]. *)
Definition determined_biome_geo `{Shapely} (g : biomes_gdf)
    (row : gmap string ecell) : W (option string) :=
  let lat := scalar (row !! "lat") in
  let lon := scalar (row !! "lon") in
  if notna lat && notna lon then get_biome_from_lat_lon g lat lon
  else ret None.

(** Returns the caller's frame as the function leaves it (the missing
    [frp], [lat], [lon] columns are added to it in place) and the new
    frame [df_com_risco]. *)
Definition aplica_avaliacao_risco_df `{PyRuntime} `{Shapely} (g : biomes_gdf)
    (df : frame cell) : W (frame cell * frame ecell) :=
  if df_empty df then
    let out := map_frame Keep df in
    let out := set_column "criticidade" (Keep CNull) out in
    let out := set_column "razoes_criticidade" (Keep CNull) out in
    let out := if negb (gdf_unusable g)
               then set_column "determined_biome_geo" (Keep CNull) out
               else out in
    ret (df, out)
  else
    let df := ensure_column "lon" (ensure_column "lat"
                (ensure_column "frp" df)) in
    do avaliacoes <- mapM (assess_foco_criticidade g) (rows df);
    let out := map_frame Keep df in
    let out := assign_column "razoes_criticidade"
                 ((fun a => Reasons (snd a)) <$> avaliacoes)
                 (assign_column "criticidade"
                    ((fun a => Keep (CStr (fst a))) <$> avaliacoes) out) in
    if negb (gdf_unusable g) then
      if has_column out "lat" && has_column out "lon" then
        do geo <- mapM (determined_biome_geo g) (rows out);
        ret (df, assign_column "determined_biome_geo" (biome_cell <$> geo) out)
      else ret (df, out)
    else ret (df, out).

(** *** Loading the biomes file

    What [geopandas.read_file] returns: the CRS of the file ([None]: no
    CRS; [Some e]: [crs.to_epsg()] is [e]), its columns and its rows. *)
Record geo_file `{Shapely} := {
  file_crs : option (option Z);
  file_columns : list string;
  file_rows : list biome_row
}.

(** The file system and geopandas as [load_biomes_data] meets them:
    the directory two levels above the module file, [os.path.exists],
    [geopandas.read_file] and [to_crs("EPSG:4326")] ([None]: the call
    raises). *)
Class GeoPandas `{Shapely} := {
  project_root : string;
  path_exists : string -> bool;
  read_file : string -> option geo_file;
  to_crs_4326 : geo_file -> option geo_file
}.

Definition BIOME_NAME_COLUMN : string := "nom_bioma".

Fixpoint ends_with_slash (s : string) : bool :=
  match s with
  | EmptyString => false
  | String c EmptyString => Ascii.eqb c "/"
  | String _ rest => ends_with_slash rest
  end.

(** [os.path.join(a, b)] for a relative [b]. *)
Definition path_join (a b : string) : string :=
  if String.eqb a "" then b
  else if ends_with_slash a then a +:+ b
  else a +:+ "/" +:+ b.

(** The file after the CRS step: kept when it has no CRS (it is then
    declared WGS84) or is in EPSG:4326 already, reprojected otherwise. *)
Definition in_wgs84 `{GeoPandas} (f : geo_file) : option geo_file :=
  match file_crs f with
  | None => Some f
  | Some epsg =>
      if bool_decide (epsg = Some 4326) then Some f else to_crs_4326 f
  end.

(** [load_biomes_data], from the value of the global [BIOMES_GDF] to its
    value afterwards.  An empty [GeoDataFrame()] is [Some []]. *)
Definition load_biomes_data `{GeoPandas} (current : biomes_gdf) : biomes_gdf :=
  match current with
  | Some _ => current
  | None =>
      let full_path := path_join project_root BIOMES_FILE_PATH in
      if negb (path_exists full_path) then Some []
      else
        match read_file full_path with
        | Some f =>
            match in_wgs84 f with
            | Some f' =>
                if bool_decide (BIOME_NAME_COLUMN ∈ file_columns f')
                then Some (file_rows f')
                else Some []
            | None => Some []
            end
        | None => Some []
        end
  end.

End Assessor.

(** ** data_collection/collector.py *)

Module Collector.
Import Config.

Record date := { year : Z; month : Z; day : Z }.

Record datetime := { date_of : date; hour : Z; minute : Z }.

Fixpoint zeros (n : nat) : string :=
  match n with
  | O => ""
  | S n' => String "0" (zeros n')
  end.

Definition zfill (width : nat) (s : string) : string :=
  zeros (width - String.length s) +:+ s.

(** [strftime("%Y%m%d")] (the year is printed as it is, which is four
    digits from the year 1000 on) and [strftime("%H%M")]. *)
Definition strftime_Ymd (d : date) : string :=
  dec (year d) +:+ zfill 2 (dec (month d)) +:+ zfill 2 (dec (day d)).

Definition strftime_HM (t : datetime) : string :=
  zfill 2 (dec (hour t)) +:+ zfill 2 (dec (minute t)).

(** The exceptions the two fetch functions tell apart.  [ClientError] is
    any other [aiohttp.ClientError]; [OtherError] is anything that no
    [except] clause of theirs catches. *)
Inductive exn :=
| ClientResponseError (status : Z)
| ClientConnectionError
| TimeoutError
| ClientError
| IOError
| OtherError.

(** What the remote end and the disk do during one transfer.  Each step
    of the body is one [response.content.read(8192)] followed by
    [f.write(chunk)]; once the steps are used up, [read] returns [b""]. *)
Inductive write_outcome :=
| Written
| WriteRaises (landed : list Byte.byte).

Inductive io_step :=
| Chunk (data : list Byte.byte) (w : write_outcome)
| ReadRaises (e : exn).

Inductive get_outcome :=
| GetRaises (e : exn)
| GetResponse (status : Z) (open_ok : bool) (body : list io_step).

(** The remote archive: what [session.get(url, timeout=60)] meets. *)
Definition network : Type := string -> get_outcome.

(** Local storage and the requests issued so far. *)
Record world := {
  dirs : gset string;
  files : gmap string (list Byte.byte);
  requests : list string
}.

Definition with_files (f : gmap string (list Byte.byte)) (w : world) : world :=
  {| dirs := dirs w; files := f; requests := requests w |}.

Inductive fetch_result :=
| Path (p : string)
| PyNone
| Raised (e : exn).

Definition ensure_dir (directory_path : string) : State world unit :=
  fun w => (tt, {| dirs := {[directory_path]} ∪ dirs w;
                   files := files w; requests := requests w |}).

Definition session_get (net : network) (url : string)
    : State world get_outcome :=
  fun w => (net url, {| dirs := dirs w; files := files w;
                        requests := requests w ++ [url] |}).

(** [aiofiles.open(path, 'wb')]: the file is created or truncated. *)
Definition open_wb (path : string) : State world unit :=
  fun w => (tt, with_files (<[path := []]> (files w)) w).

Definition write (path : string) (data : list Byte.byte) : State world unit :=
  fun w => (tt, with_files (alter (fun old => old ++ data) path (files w)) w).

(** The [while True] loop; [Some e] when it is left by exception [e]. *)
Fixpoint copy_chunks (path : string) (body : list io_step)
    : State world (option exn) :=
  match body with
  | [] => ret None
  | Chunk [] _ :: _ => ret None
  | Chunk data Written :: rest =>
      do _ <- write path data; copy_chunks path rest
  | Chunk (_ :: _) (WriteRaises landed) :: _ =>
      do _ <- write path landed; ret (Some IOError)
  | ReadRaises e :: _ => ret (Some e)
  end.

(** The body of the [try], the same text in both fetch functions. *)
Definition download (net : network) (file_url local_file_path : string)
    : State world (option exn) :=
  do r <- session_get net file_url;
  match r with
  | GetRaises e => ret (Some e)
  | GetResponse status open_ok body =>
      if 400 <=? status then ret (Some (ClientResponseError status))
      else if open_ok then
        do _ <- open_wb local_file_path; copy_chunks local_file_path body
      else ret (Some IOError)
  end.

(** The [except] clauses: each of them returns [None]. *)
Definition handle (local_file_path : string) (r : option exn) : fetch_result :=
  match r with
  | None => Path local_file_path
  | Some OtherError => Raised OtherError
  | Some _ => PyNone
  end.

Definition daily_file_name (target_date : date) : string :=
  "focos_diario_br_" +:+ strftime_Ymd target_date +:+ ".csv".

Definition fetch_daily_fire_csv (net : network) (target_date : date)
    : State world fetch_result :=
  let file_name := daily_file_name target_date in
  let file_url := CSV_BASE_URL +:+ file_name in
  do _ <- ensure_dir RAW_DATA_DIR;
  let local_file_path := RAW_DATA_DIR +:+ file_name in
  do r <- download net file_url local_file_path;
  ret (handle local_file_path r).

Definition slot_file_name (target_datetime : datetime) : string :=
  "focos_10min_" +:+ strftime_Ymd (date_of target_datetime) +:+ "_"
    +:+ strftime_HM target_datetime +:+ ".csv".

Definition fetch_10min_fire_csv (net : network) (target_datetime : datetime)
    : State world fetch_result :=
  if negb (minute target_datetime mod 10 =? 0) then ret PyNone
  else
    let file_name := slot_file_name target_datetime in
    let file_url := CSV_10MIN_BASE_URL +:+ file_name in
    do _ <- ensure_dir RAW_DATA_DIR;
    let local_file_path := RAW_DATA_DIR +:+ file_name in
    do r <- download net file_url local_file_path;
    ret (handle local_file_path r).

(** [for hour in range(24): for minute in range(0, 60, 10)]. *)
Definition day_slots (target_date : date) : list datetime :=
  h ← Z.of_nat <$> seq 0 24;
  m ← (fun k => 10 * Z.of_nat k) <$> seq 0 6;
  [ {| date_of := target_date; hour := h; minute := m |} ].

(** The check made on one gathered result: a str naming an existing file
    of more than 0 bytes whose first data row pandas can read. *)
Definition has_data `{Pandas} (w : world) (result : fetch_result) : bool :=
  match result with
  | Path p =>
      match files w !! p with
      | Some content =>
          (0 <? length content)%nat &&
          match read_csv_rows content with
          | Some n => negb (Nat.min 1 n =? 0)%nat
          | None => false
          end
      | None => false
      end
  | _ => false
  end.

Definition path_of (result : fetch_result) : option string :=
  match result with
  | Path p => Some p
  | _ => None
  end.

(** The tasks are run one after the other, in the order [gather] returns
    their results; they write to different files. *)
Definition fetch_all_10min_slots_for_day `{Pandas} (net : network)
    (target_date : date) : State world (list string) :=
  do results <- mapM (fetch_10min_fire_csv net) (day_slots target_date);
  fun w => (omap path_of (filter (fun r => has_data w r = true) results), w).

End Collector.

(** ** app.py: the two aggregation paths *)

Module App.
Import Config Collector.

(** Proleptic Gregorian day numbers, for [start_date + timedelta(days=i)]
    and [(end_date - start_date).days]. *)
Definition toordinal (d : date) : Z :=
  let y := if month d <=? 2 then year d - 1 else year d in
  let era := y / 400 in
  let yoe := y - era * 400 in
  let mp := if 2 <? month d then month d - 3 else month d + 9 in
  let doy := (153 * mp + 2) / 5 + day d - 1 in
  let doe := yoe * 365 + yoe / 4 - yoe / 100 + doy in
  era * 146097 + doe - 305.

Definition fromordinal (n : Z) : date :=
  let z := n + 305 in
  let era := z / 146097 in
  let doe := z - era * 146097 in
  let yoe := (doe - doe / 1460 + doe / 36524 - doe / 146096) / 365 in
  let doy := doe - (365 * yoe + yoe / 4 - yoe / 100) in
  let mp := (5 * doy + 2) / 153 in
  let d := doy - (153 * mp + 2) / 5 + 1 in
  let m := if mp <? 10 then mp + 3 else mp - 9 in
  {| year := yoe + era * 400 + (if m <=? 2 then 1 else 0);
     month := m; day := d |}.

Definition add_days (d : date) (i : Z) : date := fromordinal (toordinal d + i).

(** [start_date + timedelta(days=i) for i in range(num_days)]. *)
Definition days_of_range (start_date end_date : date) : list date :=
  let num_days := toordinal end_date - toordinal start_date + 1 in
  (fun i => add_days start_date (Z.of_nat i)) <$> seq 0 (Z.to_nat num_days).

(** Local storage together with the [st.cache_data] memo of [load_data],
    keyed by the path argument. *)
Record app_state := {
  disk : world;
  cache : gmap string (option (frame lcell))
}.

Definition on_disk {A} (m : State world A) : State app_state A :=
  fun s => let (a, w) := m (disk s) in (a, {| disk := w; cache := cache s |}).

Definition load_data `{Loader} (csv_path : string)
    : State app_state (option (frame lcell)) :=
  fun s =>
    match cache s !! csv_path with
    | Some r => (r, s)
    | None =>
        let r := match files (disk s) !! csv_path with
                 | Some content => load_data_body content
                 | None => None   (* FileNotFoundError *)
                 end in
        (r, {| disk := disk s; cache := <[csv_path := r]> (cache s) |})
    end.

(** [pd.concat(dfs, ignore_index=True)]: the union of the columns in
    order of first appearance, and the rows of each frame in turn, with
    NaN in the columns a frame lacks. *)
Definition fill_row (cols : list string) (r : gmap string lcell)
    : gmap string lcell :=
  foldr (fun c acc => match acc !! c with
                      | Some _ => acc
                      | None => <[c := Plain CNull]> acc
                      end) r cols.

Definition concat_columns (dfs : list (frame lcell)) : list string :=
  foldl (fun cols df => foldl (fun acc c => add_column c acc) cols (columns df))
        [] dfs.

Definition pd_concat (dfs : list (frame lcell)) : frame lcell :=
  let cols := concat_columns dfs in
  {| columns := cols;
     rows := df ← dfs; fill_row cols <$> rows df |}.

(** *** [sort_values(by=..., ascending=False)]

    Nulls go last.  The other keys are compared with [<], which raises
    [TypeError] across kinds. *)
Inductive kind := KStamp | KNum | KStr.

Definition key_kind (v : lcell) : option kind :=
  match v with
  | Stamp _ => Some KStamp
  | Plain c =>
      if notna c then
        match c with
        | CStr _ => Some KStr
        | _ => Some KNum
        end
      else None
  end.

Definition kind_rank (k : kind) : Z :=
  match k with
  | KStamp => 2
  | KNum => 1
  | KStr => 0
  end.

Definition sortable (keys : list lcell) : bool :=
  match omap key_kind keys with
  | [] => true
  | k :: ks => forallb (fun k' => kind_rank k' =? kind_rank k) ks
  end.

(** [a] may stand before [b] in descending order. *)
Definition desc_ge (a b : lcell) : bool :=
  match key_kind b, key_kind a with
  | None, _ => true
  | Some _, None => false
  | Some kb, Some ka =>
      if kind_rank ka =? kind_rank kb then
        match a, b with
        | Stamp x, Stamp y => y <=? x
        | Plain (CNum x), Plain (CNum y) => float_ge x y
        | Plain (CStr x), Plain (CStr y) => String.leb y x
        | _, _ => true
        end
      else kind_rank kb <? kind_rank ka
  end.

Definition sort_key (by_ : string) (r : gmap string lcell) : lcell :=
  default (Plain CNull) (r !! by_).

Definition row_desc (by_ : string) (r1 r2 : gmap string lcell) : Prop :=
  desc_ge (sort_key by_ r1) (sort_key by_ r2) = true.

#[export] Instance row_desc_dec by_ r1 r2 : Decision (row_desc by_ r1 r2).
Proof. unfold row_desc. apply _. Defined.

(** [None] stands for the [TypeError].  The order pandas gives to rows of
    equal key is not fixed; a merge sort stands for its sort. *)
Definition sort_values_desc (by_ : string) (df : frame lcell)
    : option (frame lcell) :=
  if sortable (sort_key by_ <$> rows df) then
    Some {| columns := columns df;
            rows := merge_sort (row_desc by_) (rows df) |}
  else None.

Inductive outcome :=
| NoData                      (* the function returns [None] *)
| Frame (df : frame lcell)
| TypeError.

Definition kept (df : option (frame lcell)) : list (frame lcell) :=
  match df with
  | Some d => if df_empty d then [] else [d]
  | None => []
  end.

(** [for file_path in list_of_files]: [load_data] on each path, keeping
    the frames that are neither [None] nor empty. *)
Fixpoint load_all `{Loader} (paths : list string)
    : State app_state (list (frame lcell)) :=
  match paths with
  | [] => ret []
  | file_path :: rest =>
      do df_slot <- load_data file_path;
      do dfs <- load_all rest;
      ret (kept df_slot ++ dfs)
  end.

(** One turn of the loop over the gathered results:
    [isinstance(result, str) and os.path.exists(result)], then
    [load_data]. *)
Definition load_result `{Loader} (result : fetch_result)
    : State app_state (list (frame lcell)) :=
  fun s =>
    match result with
    | Path p =>
        match files (disk s) !! p with
        | Some _ => (do df_day <- load_data p; ret (kept df_day)) s
        | None => ([], s)
        end
    | _ => ([], s)
    end.

Fixpoint load_results `{Loader} (results : list fetch_result)
    : State app_state (list (frame lcell)) :=
  match results with
  | [] => ret []
  | result :: rest =>
      do here <- load_result result;
      do more <- load_results rest;
      ret (here ++ more)
  end.

(** The list [all_dfs] built by [fetch_data_for_range]. *)
Definition daily_frames `{Loader} (net : network) (start_date end_date : date)
    : State app_state (list (frame lcell)) :=
  do results <- on_disk (mapM (fetch_daily_fire_csv net)
                           (days_of_range start_date end_date));
  load_results results.

Definition fetch_data_for_range `{Loader} (net : network)
    (start_date end_date : date) : State app_state outcome :=
  do all_dfs <- daily_frames net start_date end_date;
  match all_dfs with
  | [] => ret NoData
  | _ => ret (Frame (pd_concat all_dfs))
  end.

(** The list [all_10min_dfs] built by
    [load_and_combine_10min_data_for_days]. *)
Fixpoint slot_frames `{Pandas} `{Loader} (net : network)
    (days_list : list date) : State app_state (list (frame lcell)) :=
  match days_list with
  | [] => ret []
  | target_day :: rest =>
      do list_of_files <- on_disk (fetch_all_10min_slots_for_day net target_day);
      do day_dfs <- load_all list_of_files;
      do more <- slot_frames net rest;
      ret (day_dfs ++ more)
  end.

Definition load_and_combine_10min_data_for_days `{Pandas} `{Loader}
    (net : network) (days_list : list date) : State app_state outcome :=
  do all_10min_dfs <- slot_frames net days_list;
  match all_10min_dfs with
  | [] => ret NoData
  | _ =>
      let combined_df := pd_concat all_10min_dfs in
      if has_column combined_df "event_datetime" then
        match sort_values_desc "event_datetime" combined_df with
        | Some sorted => ret (Frame sorted)
        | None => ret TypeError
        end
      else ret (Frame combined_df)
  end.

(** *** The panels

    The PyDeck block of the 10-minute tab and the alert tables of the
    third tab, on the frame [aplica_avaliacao_risco_df] returned. *)

(** [df[cols]] for a list of labels: [None] stands for [KeyError]. *)
Definition select_columns {V} (cols : list string) (df : frame V)
    : option (frame V) :=
  if forallb (has_column df) cols then
    Some {| columns := cols;
            rows := (fun r : gmap string V =>
                       filter (fun kv => fst kv ∈ cols) r) <$> rows df |}
  else None.

Definition is_null (v : option Assessor.ecell) : bool :=
  match v with
  | Some (Assessor.Keep c) => isna c
  | Some (Assessor.Reasons _) => false
  | None => true
  end.

(** [df.dropna(subset=cols)]. *)
Definition dropna (subset : list string) (df : frame Assessor.ecell)
    : frame Assessor.ecell :=
  {| columns := columns df;
     rows := filter (fun r : gmap string Assessor.ecell =>
                       forallb (fun c => negb (is_null (r !! c))) subset = true)
                    (rows df) |}.

Inductive panel :=
| Shown (df : frame Assessor.ecell)
| KeyError
| Warned.

Definition pydeck_data (df_10min_display : frame Assessor.ecell) : panel :=
  if has_column df_10min_display "lat" && has_column df_10min_display "lon"
     && has_column df_10min_display "criticidade" then
    match select_columns
            ["lat"; "lon"; "criticidade"; "frp"; "determined_biome_geo"]
            df_10min_display with
    | Some selected => Shown (dropna ["lat"; "lon"] selected)
    | None => KeyError
    end
  else Warned.

(** [series.isin(selected)] at one row. *)
Definition isin (selected : list string) (v : option Assessor.ecell) : bool :=
  match v with
  | Some (Assessor.Keep (CStr label)) => existsb (String.eqb label) selected
  | _ => false
  end.

(** The default of the multiselect of risk levels. *)
Definition default_risk_levels : list string := ["Crítico"; "Alto"].

(** [alerts_df = df[df['criticidade'].isin(selected_risk_levels)]]. *)
Definition alert_rows (selected_risk_levels : list string)
    (df : frame Assessor.ecell) : frame Assessor.ecell :=
  {| columns := columns df;
     rows := filter (fun r : gmap string Assessor.ecell =>
                       isin selected_risk_levels (r !! "criticidade") = true)
                    (rows df) |}.

Definition cols_to_show : list string :=
  ["event_datetime"; "lat"; "lon"; "municipio"; "estado"; "bioma"; "frp";
   "criticidade"; "razoes_criticidade"].

Inductive alert_panel :=
| AlertTable (count : nat) (table : frame Assessor.ecell)
| AlertKeyError
| AlertInfo
| AlertWarning.

(** One alert section of the third tab, from the assessed frame kept in
    the session state ([None] when there is none). *)
Definition alerts_section (selected_risk_levels : list string)
    (assessed : option (frame Assessor.ecell)) : alert_panel :=
  match assessed with
  | Some df =>
      if df_empty df then AlertInfo
      else if has_column df "criticidade" then
        let alerts_df := alert_rows selected_risk_levels df in
        if df_empty alerts_df then AlertInfo
        else
          let cols_present := List.filter (has_column alerts_df) cols_to_show in
          match select_columns cols_present alerts_df with
          | Some table => AlertTable (length (rows alerts_df)) table
          | None => AlertKeyError
          end
      else AlertWarning
  | None => AlertInfo
  end.

End App.

(** ** A concrete runtime, for running the embedding on examples *)

Module Sample.
Import Config Assessor.

(** [float] restricted to plain decimal integers such as ["80"]. *)
Definition float_of_digits (s : string) : option pyfloat :=
  match NilZero.uint_of_string s with
  | Some u => Some (Ffin (inject_Z (Z.of_N (N.of_uint u))))
  | None => None
  end.

#[export] Instance digits_runtime : PyRuntime :=
  {| float_of_str := float_of_digits |}.

(** Axis-parallel boxes as geometries; a point lies within a box when it is
    strictly inside. *)
Record box := { xmin : Q; xmax : Q; ymin : Q; ymax : Q }.

Definition box_point (x y : cell) : option (Q * Q) :=
  match x, y with
  | CNum (Ffin a), CNum (Ffin b) => Some (a, b)
  | _, _ => None
  end.

Definition box_within (p : Q * Q) (b : box) : bool :=
  let (x, y) := p in
  negb (Qle_bool x (xmin b)) && negb (Qle_bool (xmax b) x)
  && negb (Qle_bool y (ymin b)) && negb (Qle_bool (ymax b) y).

#[export] Instance box_shapely : Shapely :=
  {| geometry := box; point := Q * Q;
     Point := box_point; within := box_within |}.

Definition amazonia_box : box :=
  {| xmin := -(74 # 1); xmax := -(44 # 1); ymin := -(17 # 1); ymax := 5 # 1 |}.

Definition pantanal_box : box :=
  {| xmin := -(59 # 1); xmax := -(55 # 1); ymin := -(22 # 1); ymax := -(16 # 1) |}.

Definition sample_gdf : biomes_gdf :=
  Some [ {| row_geometry := amazonia_box; row_name := "Amazônia" |};
         {| row_geometry := pantanal_box; row_name := "Pantanal" |} ].

Definition num (z : Z) : cell := CNum (Ffin (inject_Z z)).

(** Scenario A of the specification: frp 80 at (-3, -60), no [bioma]. *)
Definition foco_A : gmap string cell :=
  <["frp" := num 80]> (<["lat" := num (-3)]> (<["lon" := num (-60)]>
    (<["bioma" := CNull]> ∅))).

(** Scenario B: every field null. *)
Definition foco_B : gmap string cell :=
  <["frp" := CNull]> (<["lat" := CNull]> (<["lon" := CNull]>
    (<["bioma" := CNull]> ∅))).

(** A toy CSV reader: the first line is the header, and every further
    line holds one decimal number, the timestamp of a detection. *)
Fixpoint lines_from (cur : list Byte.byte) (bs : list Byte.byte)
    : list (list Byte.byte) :=
  match bs with
  | [] => match cur with [] => [] | _ => [rev cur] end
  | b :: rest =>
      if Byte.eqb b Byte.x0a then rev cur :: lines_from [] rest
      else lines_from (b :: cur) rest
  end.

Definition toy_rows (content : list Byte.byte) : option nat :=
  match lines_from [] content with
  | [] => None
  | _ :: data => Some (length data)
  end.

Definition toy_cell (line : list Byte.byte) : lcell :=
  match NilZero.uint_of_string (string_of_list_byte line) with
  | Some u => Stamp (Z.of_N (N.of_uint u))
  | None => Plain CNull
  end.

Definition toy_load (content : list Byte.byte) : option (frame lcell) :=
  match lines_from [] content with
  | [] => None
  | _ :: data =>
      Some {| columns := ["event_datetime"];
              rows := (fun l => {["event_datetime" := toy_cell l]}) <$> data |}
  end.

#[export] Instance toy_pandas : Pandas := {| read_csv_rows := toy_rows |}.
#[export] Instance toy_loader : Loader := {| load_data_body := toy_load |}.

Definition bytes (s : string) : list Byte.byte := list_byte_of_string s.

Definition nl : string := String "010"%char "".

Definition empty_world : Collector.world :=
  {| Collector.dirs := ∅; Collector.files := ∅; Collector.requests := [] |}.

Definition empty_state : App.app_state :=
  {| App.disk := empty_world; App.cache := ∅ |}.

Definition not_found : Collector.get_outcome :=
  Collector.GetResponse 404 true [].

Definition sample_day : Collector.date :=
  {| Collector.year := 2024; Collector.month := 2; Collector.day := 28 |}.

Definition partial_csv : list Byte.byte :=
  bytes ("data" +:+ nl +:+ "5" +:+ nl).

(** The connection drops after the first chunk of every transfer. *)
Definition dropping_net : Collector.network :=
  fun _ => Collector.GetResponse 200 true
             [Collector.Chunk partial_csv Collector.Written;
              Collector.ReadRaises Collector.ClientConnectionError].

(** A record with an explicit biome and no coordinates. *)
Definition foco_explicit : gmap string cell :=
  <["frp" := num 80]> (<["bioma" := CStr "Pantanal"]> ∅).

(** A record with a textual frp between half the threshold and the
    threshold, and nothing else. *)
Definition foco_medium : gmap string cell := <["frp" := CStr "40"]> ∅.

Definition frame_A : frame cell :=
  {| columns := ["frp"; "lat"; "lon"; "bioma"]; rows := [foco_A; foco_B] |}.

Definition midnight : Collector.datetime :=
  {| Collector.date_of := sample_day; Collector.hour := 0;
     Collector.minute := 0 |}.

Definition off_slot : Collector.datetime :=
  {| Collector.date_of := sample_day; Collector.hour := 0;
     Collector.minute := 5 |}.

Definition two_rows_csv : list Byte.byte :=
  bytes ("data" +:+ nl +:+ "5" +:+ nl +:+ "9" +:+ nl).

(** The slots of 00:00 and 00:20 are served in full, the transfer of the
    slot of 00:10 drops, every other slot is absent. *)
Definition three_slot_net : Collector.network :=
  fun url =>
    if String.eqb url (CSV_10MIN_BASE_URL +:+ "focos_10min_20240228_0000.csv")
    then Collector.GetResponse 200 true
           [Collector.Chunk two_rows_csv Collector.Written]
    else if String.eqb url
              (CSV_10MIN_BASE_URL +:+ "focos_10min_20240228_0010.csv")
    then dropping_net url
    else if String.eqb url
              (CSV_10MIN_BASE_URL +:+ "focos_10min_20240228_0020.csv")
    then Collector.GetResponse 200 true
           [Collector.Chunk (bytes ("data" +:+ nl +:+ "7" +:+ nl))
              Collector.Written]
    else not_found.

Definition combined_slots : frame lcell :=
  match fst (App.load_and_combine_10min_data_for_days three_slot_net
               [sample_day] empty_state) with
  | App.Frame df => df
  | _ => {| columns := []; rows := [] |}
  end.

(** An installation without the biomes file. *)
#[export] Instance no_biomes_file : GeoPandas :=
  {| project_root := "/srv/queimadas_monitor";
     path_exists := fun _ => false;
     read_file := fun _ => None;
     to_crs_4326 := fun _ => None |}.

(** A record with a textual frp above the threshold, and nothing else. *)
Definition foco_high : gmap string cell := <["frp" := CStr "80"]> ∅.

Definition day_before : Collector.date :=
  {| Collector.year := 2024; Collector.month := 2; Collector.day := 27 |}.

Definition two_chunks : list (list Byte.byte) :=
  [bytes ("data" +:+ nl); bytes ("5" +:+ nl)].

(** Every transfer is served in full, in two chunks. *)
Definition serving_net : Collector.network :=
  fun _ => Collector.GetResponse 200 true
             ((fun c => Collector.Chunk c Collector.Written) <$> two_chunks).

End Sample.

(** ** Vocabulary of the statements *)

Module Vocabulary.
Import Config Assessor.

(** The character [c] occurs in [s]. *)
Fixpoint occurs (c : ascii) (s : string) : bool :=
  match s with
  | EmptyString => false
  | String a s' => Ascii.eqb a c || occurs c s'
  end.

(** The number the [frp] field parses to, when it is present, non-null
    and [float] accepts it. *)
Definition frp_value `{PyRuntime} (foco : gmap string cell) : option pyfloat :=
  if has_notna foco "frp" then float_of_cell (default CNull (foco !! "frp"))
  else None.

(** What the lookup answers for the coordinates of a record. *)
Definition lookup_result `{Shapely} (g : biomes_gdf) (foco : gmap string cell)
    : option string :=
  fst (get_biome_from_lat_lon g (default CNull (foco !! "lat"))
                                (default CNull (foco !! "lon")) []).

(** The effective biome of a record: the [bioma] field when it is present
    and non-null, else the answer of the lookup on its coordinates when
    both are present and non-null. *)
Definition effective_biome `{Shapely} (g : biomes_gdf)
    (foco : gmap string cell) : cell :=
  fst (fst (determine_biome g foco [])).

(** The two biomes of highest sensitivity. *)
Definition highest (b : string) : Prop := b = "Amazônia" \/ b = "Pantanal".



(** *** Fetching *)

(** The bytes the copy loop puts in the file, and the exception that ends
    it, if any. *)
Fixpoint written (body : list Collector.io_step) : list Byte.byte :=
  match body with
  | Collector.Chunk (b :: data) Collector.Written :: rest =>
      (b :: data) ++ written rest
  | Collector.Chunk (_ :: _) (Collector.WriteRaises landed) :: _ => landed
  | _ => []
  end.

Fixpoint loop_error (body : list Collector.io_step) : option Collector.exn :=
  match body with
  | Collector.Chunk (_ :: _) Collector.Written :: rest => loop_error rest
  | Collector.Chunk (_ :: _) (Collector.WriteRaises _) :: _ =>
      Some Collector.IOError
  | Collector.ReadRaises e :: _ => Some e
  | _ => None
  end.

(** The exception a transfer ends with; [None] when it completes. *)
Definition transfer_error (o : Collector.get_outcome) : option Collector.exn :=
  match o with
  | Collector.GetRaises e => Some e
  | Collector.GetResponse status open_ok body =>
      if 400 <=? status then Some (Collector.ClientResponseError status)
      else if open_ok then loop_error body
      else Some Collector.IOError
  end.

(** The transfer reaches the copy loop: the local file has been opened. *)
Definition file_opened (o : Collector.get_outcome) : bool :=
  match o with
  | Collector.GetResponse status true _ => negb (400 <=? status)
  | _ => false
  end.

Definition body_of (o : Collector.get_outcome) : list Collector.io_step :=
  match o with
  | Collector.GetResponse _ _ body => body
  | Collector.GetRaises _ => []
  end.

(** Local files after a transfer to [path]. *)
Definition files_after (o : Collector.get_outcome) (path : string)
    (fs : gmap string (list Byte.byte)) : gmap string (list Byte.byte) :=
  if file_opened o then <[path := written (body_of o)]> fs else fs.

Definition daily_url (d : Collector.date) : string :=
  CSV_BASE_URL +:+ Collector.daily_file_name d.

Definition daily_path (d : Collector.date) : string :=
  RAW_DATA_DIR +:+ Collector.daily_file_name d.

Definition slot_url (t : Collector.datetime) : string :=
  CSV_10MIN_BASE_URL +:+ Collector.slot_file_name t.

Definition slot_path (t : Collector.datetime) : string :=
  RAW_DATA_DIR +:+ Collector.slot_file_name t.


(** What a fetch of [url] into [path] from world [w] gives, by the point
    the transfer [o] reached. *)
Definition fetched (o : Collector.get_outcome) (url path : string)
    (w : Collector.world) : Collector.fetch_result * Collector.world :=
  (Collector.handle path (transfer_error o),
   {| Collector.dirs := {[RAW_DATA_DIR]} ∪ Collector.dirs w;
      Collector.files := files_after o path (Collector.files w);
      Collector.requests := Collector.requests w ++ [url] |}).


(** The content a completed transfer leaves in the local file. *)
Definition transferred (o : Collector.get_outcome) : option (list Byte.byte) :=
  match transfer_error o with
  | None => Some (written (body_of o))
  | Some _ => None
  end.

(** A file of more than 0 bytes in which pandas reads a data row. *)
Definition holds_data `{Pandas} (content : list Byte.byte) : Prop :=
  (0 < length content)%nat /\
  exists n, read_csv_rows content = Some n /\ (0 < n)%nat.

(** The endings of the 144 slot file names of a day, ["0000.csv"] to
    ["2350.csv"]. *)
Definition slot_tails : list string :=
  (fun t => Collector.strftime_HM t +:+ ".csv")
    <$> Collector.day_slots
          {| Collector.year := 0; Collector.month := 0; Collector.day := 0 |}.

Definition slot_path_of_tail (d : Collector.date) (tail : string) : string :=
  RAW_DATA_DIR +:+ "focos_10min_" +:+ Collector.strftime_Ymd d +:+ "_"
    +:+ tail.

(** Local files after the fetches of the slots [ts], in turn. *)
Definition files_after_slots (net : Collector.network)
    (ts : list Collector.datetime) (fs : gmap string (list Byte.byte))
    : gmap string (list Byte.byte) :=
  foldl (fun acc t => files_after (net (slot_url t)) (slot_path t) acc) fs ts.

(** *** Aggregation *)

(** What [load_data] gives for a path: the memoised answer if there is
    one, else the parse of the file. *)
Definition table_of `{Loader} (memo : gmap string (option (frame lcell)))
    (fs : gmap string (list Byte.byte)) (p : string) : option (frame lcell) :=
  match memo !! p with
  | Some r => r
  | None =>
      match fs !! p with
      | Some content => load_data_body content
      | None => None
      end
  end.

(** Local files after the daily fetches of [days], in turn. *)
Definition files_after_days (net : Collector.network)
    (days : list Collector.date) (fs : gmap string (list Byte.byte))
    : gmap string (list Byte.byte) :=
  foldl (fun acc d => files_after (net (daily_url d)) (daily_path d) acc)
        fs days.

(** The frames of a range, day by day in the order of [days]: a day
    whose transfer completed gives its table unless that is [None] or
    empty, any other day gives nothing. *)
Definition day_tables `{Loader} (net : Collector.network) (s : App.app_state)
    (days : list Collector.date) : list (frame lcell) :=
  let fs := files_after_days net days (Collector.files (App.disk s)) in
  d ← days;
  match transfer_error (net (daily_url d)) with
  | None => App.kept (table_of (App.cache s) fs (daily_path d))
  | Some _ => []
  end.

(** The state keeps the files [fs] and answers [load_data] as the memo
    [memo] with those files does. *)
Definition agrees `{Loader} (memo : gmap string (option (frame lcell)))
    (fs : gmap string (list Byte.byte)) (s : App.app_state) : Prop :=
  Collector.files (App.disk s) = fs /\
  forall p, table_of (App.cache s) fs p = table_of memo fs p.

(** What one gathered result adds to [all_dfs]. *)
Definition contribution `{Loader} (memo : gmap string (option (frame lcell)))
    (fs : gmap string (list Byte.byte)) (result : Collector.fetch_result)
    : list (frame lcell) :=
  match result with
  | Collector.Path p =>
      match fs !! p with
      | Some _ => App.kept (table_of memo fs p)
      | None => []
      end
  | _ => []
  end.

(** The key is a parsed timestamp or null (NaT). *)
Definition parsed_or_null (v : lcell) : Prop :=
  App.key_kind v = None \/ exists t, v = Stamp t.

(** *** Tiers *)

(** [RISK_LEVELS[label]]; [None] stands for [KeyError]. *)
Definition risk_level (label : string) : option Z :=
  snd <$> List.find (fun kv => String.eqb (fst kv) label) RISK_LEVELS.

(** The frp of the record parses to a value at or above the threshold,
    or at or above half of it. *)
Definition frp_high `{PyRuntime} (foco : gmap string cell) : bool :=
  match frp_value foco with
  | Some v => float_ge v RISK_FRP_THRESHOLD
  | None => false
  end.

Definition frp_half `{PyRuntime} (foco : gmap string cell) : bool :=
  match frp_value foco with
  | Some v => float_ge v RISK_FRP_THRESHOLD_half
  | None => false
  end.

(** The tier as a table of the four facts the classifier looks at. *)
Definition tier_table (high half sensitive highest_biome : bool) : string :=
  if high then (if highest_biome then "Crítico" else "Alto")
  else if half || sensitive then "Médio"
  else "Baixo".

(** *** Loading the index *)

Definition biomes_full_path `{GeoPandas} : string :=
  path_join project_root BIOMES_FILE_PATH.

(** The four ways the first load fails: the file is not there, it cannot
    be read, it cannot be reprojected, or it lacks the name column. *)
Definition load_fails `{GeoPandas} : Prop :=
  path_exists biomes_full_path = false \/
  read_file biomes_full_path = None \/
  (exists f, read_file biomes_full_path = Some f /\ in_wgs84 f = None) \/
  (exists f f', read_file biomes_full_path = Some f /\
                in_wgs84 f = Some f' /\
                BIOME_NAME_COLUMN ∉ file_columns f').

(** *** The enriched frame *)

Definition ensured (df : frame cell) : frame cell :=
  ensure_column "lon" (ensure_column "lat" (ensure_column "frp" df)).

(** The row of the enriched frame for a row of the input. *)
Definition enriched_row `{PyRuntime} `{Shapely} (g : biomes_gdf)
    (r : gmap string cell) : gmap string ecell :=
  let a := fst (assess_foco_criticidade g r []) in
  let base := <["razoes_criticidade" := Reasons (snd a)]>
                (<["criticidade" := Keep (CStr (fst a))]> (Keep <$> r)) in
  if gdf_unusable g then base
  else <["determined_biome_geo" := biome_cell (lookup_result g r)]> base.

End Vocabulary.

(** * Properties *)

Import Config Assessor Collector App Vocabulary.

(** ** Strings *)

Lemma prefix_refl (s : string) : String.prefix s s = true.
Proof.
  induction s as [|a s IH]; simpl; [reflexivity|].
  destruct (ascii_dec a a); [exact IH | congruence].
Qed.

Lemma is_substring_unfold (s r : string) :
  is_substring s r =
  String.prefix s r ||
  match r with
  | EmptyString => false
  | String _ r' => is_substring s r'
  end.
Proof. destruct r; reflexivity. Qed.

Lemma is_substring_refl (s : string) : is_substring s s = true.
Proof. rewrite is_substring_unfold, prefix_refl. reflexivity. Qed.

Lemma prefix_head_occurs (c : ascii) (s r : string) :
  String.prefix (String c s) r = true -> occurs c r = true.
Proof.
  destruct r as [|b r]; simpl; [discriminate|].
  destruct (ascii_dec c b) as [->|]; [|discriminate].
  intros _. rewrite Ascii.eqb_refl. reflexivity.
Qed.

Lemma is_substring_head_occurs (c : ascii) (s r : string) :
  is_substring (String c s) r = true -> occurs c r = true.
Proof.
  induction r as [|b r IH].
  - simpl. discriminate.
  - intros Hsub. rewrite is_substring_unfold in Hsub.
    apply orb_true_iff in Hsub as [Hp | Hs].
    + eapply prefix_head_occurs; eassumption.
    + simpl. rewrite (IH Hs). apply orb_true_r.
Qed.

Lemma occurs_append (c : ascii) (a b : string) :
  occurs c (a +:+ b) = occurs c a || occurs c b.
Proof.
  induction a as [|x a IH]; simpl; [reflexivity|].
  rewrite IH. apply orb_assoc.
Qed.

Lemma occurs_digits (d : Decimal.uint) :
  occurs "B" (NilEmpty.string_of_uint d) = false.
Proof. induction d; simpl; assumption || reflexivity. Qed.

Lemma occurs_dec (z : Z) : occurs "B" (dec z) = false.
Proof.
  unfold dec, NilZero.string_of_uint.
  destruct (N.to_uint (Z.to_N z)) eqn:E; try reflexivity;
    rewrite <- E; apply occurs_digits.
Qed.

Lemma occurs_format_2f (v : pyfloat) : occurs "B" (format_2f v) = false.
Proof.
  destruct v as [|[]|q]; try reflexivity.
  unfold format_2f, two_digits.
  repeat rewrite occurs_append.
  repeat match goal with
         | |- context [if ?b then _ else _] => destruct b
         end;
    repeat rewrite occurs_append; repeat rewrite occurs_dec; reflexivity.
Qed.

(** The geolocation sentence never occurs inside the FRP sentence. *)
Lemma geo_not_in_frp (b : string) (v : pyfloat) :
  is_substring (geo_reason b) (frp_reason v) = false.
Proof.
  destruct (is_substring (geo_reason b) (frp_reason v)) eqn:E; [|reflexivity].
  apply is_substring_head_occurs in E.
  unfold frp_reason in E. rewrite !occurs_append, occurs_format_2f in E.
  discriminate E.
Qed.

(** ** The biome lookup *)

Ltac run := unfold bind, ret, tell in *; simpl in *.

Lemma iterrows_within_first `{Shapely} (p : point) (rows : list biome_row) :
  forall (i : nat) (t : list event),
  match iterrows_within p i rows t with
  | (Some name, t') =>
      exists (k : nat) (row : biome_row),
        rows !! k = Some row /\ within p (row_geometry row) = true /\
        row_name row = name /\
        (forall j row', (j < k)%nat -> rows !! j = Some row' ->
                        within p (row_geometry row') = false) /\
        t' = t ++ (PolygonTest <$> seq i (S k))
  | (None, t') =>
      (forall row, row ∈ rows -> within p (row_geometry row) = false) /\
      t' = t ++ (PolygonTest <$> seq i (length rows))
  end.
Proof.
  induction rows as [|row rest IH]; intros i t.
  - run. split; [intros row Hin; inversion Hin | now rewrite app_nil_r].
  - cbn [iterrows_within]. run.
    destruct (within p (row_geometry row)) eqn:Hw.
    + exists 0%nat, row. repeat split; try assumption; try reflexivity.
      intros j row' Hj. lia.
    + specialize (IH (S i) (t ++ [PolygonTest i])).
      destruct (iterrows_within p (S i) rest (t ++ [PolygonTest i]))
        as [[name|] t'].
      * destruct IH as (k & r & Hk & Hwk & Hn & Hfirst & Ht).
        exists (S k), r. repeat split; try assumption.
        -- intros [|j] row' Hj Hlook.
           ++ simpl in Hlook. congruence.
           ++ simpl in Hlook. apply (Hfirst j); [lia | assumption].
        -- rewrite Ht, <- app_assoc. reflexivity.
      * destruct IH as [Hall Ht]. split.
        -- intros r Hin. apply elem_of_cons in Hin as [->|Hin]; auto.
        -- rewrite Ht, <- app_assoc. reflexivity.
Qed.

(** The answer of the lookup does not depend on the trace so far. *)
Lemma iterrows_within_answer `{Shapely} (p : point) (rows : list biome_row) :
  forall i j t u,
    fst (iterrows_within p i rows t) = fst (iterrows_within p j rows u).
Proof.
  induction rows as [|row rest IH]; intros i j t u; [reflexivity|].
  cbn [iterrows_within]. run.
  destruct (within p (row_geometry row)); [reflexivity | apply IH].
Qed.

Lemma get_biome_answer `{Shapely} (g : biomes_gdf) (lat lon : cell) t u :
  fst (get_biome_from_lat_lon g lat lon t)
  = fst (get_biome_from_lat_lon g lat lon u).
Proof.
  unfold get_biome_from_lat_lon. run.
  destruct (gdf_unusable g); [reflexivity|].
  destruct (isna lat || isna lon); [reflexivity|].
  destruct (Point lon lat); [apply iterrows_within_answer | reflexivity].
Qed.

(** C4: [get_biome_from_lat_lon] answers None (unknown) when a coordinate
    is null, having tested no polygon, and when the index is missing or
    empty; with both coordinates non-null, a non-empty index and the point
    (lon, lat), it answers the name of the first row in load order whose
    geometry contains the point, testing the rows up to that one, and None
    when no row contains it. *)
Theorem get_biome_from_lat_lon_first_match `{Shapely}
    (g : biomes_gdf) (lat lon : cell) (t : list event) :
  (isna lat || isna lon = true ->
     get_biome_from_lat_lon g lat lon t = (None, t ++ [Lookup lat lon])) /\
  (gdf_unusable g = true ->
     get_biome_from_lat_lon g lat lon t = (None, t ++ [Lookup lat lon])) /\
  (forall (rows : list biome_row) (p : point),
     g = Some rows -> rows <> [] -> isna lat || isna lon = false ->
     Point lon lat = Some p ->
     match get_biome_from_lat_lon g lat lon t with
     | (Some name, t') =>
         exists (k : nat) (row : biome_row),
           rows !! k = Some row /\ within p (row_geometry row) = true /\
           row_name row = name /\
           (forall j row', (j < k)%nat -> rows !! j = Some row' ->
                           within p (row_geometry row') = false) /\
           t' = t ++ Lookup lat lon :: (PolygonTest <$> seq 0 (S k))
     | (None, t') =>
         (forall row, row ∈ rows -> within p (row_geometry row) = false) /\
         t' = t ++ Lookup lat lon :: (PolygonTest <$> seq 0 (length rows))
     end).
Proof.
  split; [|split].
  - intros Hna. unfold get_biome_from_lat_lon. run.
    destruct (gdf_unusable g); [reflexivity|]. rewrite Hna. reflexivity.
  - intros Hg. unfold get_biome_from_lat_lon. run. rewrite Hg. reflexivity.
  - intros rows p -> Hrows Hna Hp. unfold get_biome_from_lat_lon. run.
    destruct rows as [|r0 rest]; [congruence|]. cbn [gdf_unusable].
    rewrite Hna, Hp.
    pose proof (iterrows_within_first p (r0 :: rest) 0
                  (t ++ [Lookup lat lon])) as Hfirst.
    cbn [default] in *.
    destruct (iterrows_within p 0 (r0 :: rest) (t ++ [Lookup lat lon]))
      as [[name|] t'].
    + destruct Hfirst as (k & row & Hk & Hw & Hn & Hj & Ht).
      exists k, row. repeat split; try assumption.
      rewrite Ht, <- app_assoc. reflexivity.
    + destruct Hfirst as [Hall Ht]. split; [assumption|].
      rewrite Ht, <- app_assoc. reflexivity.
Qed.

(** ** The classifier, step by step *)

Lemma determine_biome_answer `{Shapely} (g : biomes_gdf)
    (foco : gmap string cell) (t u : list event) :
  fst (determine_biome g foco t) = fst (determine_biome g foco u).
Proof.
  unfold determine_biome. run.
  destruct (has_notna foco "bioma"); [reflexivity|].
  destruct (has_notna foco "lat" && has_notna foco "lon"); [|reflexivity].
  pose proof (get_biome_answer g (default CNull (foco !! "lat"))
                (default CNull (foco !! "lon")) t u) as Hans.
  destruct (get_biome_from_lat_lon g _ _ t) as [b1 t1].
  destruct (get_biome_from_lat_lon g _ _ u) as [b2 u1].
  simpl in Hans. subst b2.
  destruct b1 as [s|]; [|reflexivity].
  destruct (negb (s =? "")%string); reflexivity.
Qed.

(** The reasons recorded while the biome is determined: none, or the
    geolocation sentence for the biome found. *)
Lemma determine_biome_reasons `{Shapely} (g : biomes_gdf)
    (foco : gmap string cell) (t : list event) :
  forall db r0 t', determine_biome g foco t = (db, r0, t') ->
    r0 = [] \/ exists s, db = CStr s /\ r0 = [geo_reason s].
Proof.
  intros db r0 t'. unfold determine_biome. run.
  destruct (has_notna foco "bioma"); [intros [= <- <- <-]; now left|].
  destruct (has_notna foco "lat" && has_notna foco "lon");
    [|intros [= <- <- <-]; now left].
  destruct (get_biome_from_lat_lon g _ _ t) as [[s|] t1];
    [|intros [= <- <- <-]; now left].
  destruct (negb (s =? "")%string); intros [= <- <- <-];
    [right; now exists s | now left].
Qed.

Lemma determine_biome_explicit `{Shapely} (g : biomes_gdf)
    (foco : gmap string cell) (t : list event) :
  has_notna foco "bioma" = true ->
  determine_biome g foco t = (default CNull (foco !! "bioma"), [], t).
Proof. intros Hb. unfold determine_biome. rewrite Hb. reflexivity. Qed.

Lemma criterio_frp_cases `{PyRuntime} (foco : gmap string cell)
    (razoes : list string) :
  criterio_frp foco razoes =
  match frp_value foco with
  | Some v =>
      if float_ge v RISK_FRP_THRESHOLD then (2, razoes ++ [frp_reason v])
      else if float_ge v RISK_FRP_THRESHOLD_half then (1, razoes)
      else (0, razoes)
  | None => (0, razoes)
  end.
Proof.
  unfold criterio_frp, frp_value.
  destruct (has_notna foco "frp"); [|reflexivity].
  destruct (float_of_cell _); reflexivity.
Qed.

Lemma criterio_frp_level `{PyRuntime} (foco : gmap string cell)
    (razoes : list string) :
  0 <= fst (criterio_frp foco razoes) <= 2.
Proof.
  rewrite criterio_frp_cases.
  destruct (frp_value foco) as [v|]; simpl; [|lia].
  destruct (float_ge v RISK_FRP_THRESHOLD); simpl; [lia|].
  destruct (float_ge v RISK_FRP_THRESHOLD_half); simpl; lia.
Qed.

Lemma cell_in_highest (s : string) :
  cell_in (CStr s) ["Amazônia"; "Pantanal"] = true <-> highest s.
Proof.
  unfold highest. simpl. rewrite orb_false_r, orb_true_iff, !String.eqb_eq.
  tauto.
Qed.

Lemma highest_sensitive (s : string) :
  highest s -> cell_in (CStr s) SENSITIVE_BIOMES = true /\ truthy (CStr s) = true.
Proof. intros [-> | ->]; split; reflexivity. Qed.

(** The level after the biome criterion: it is 3 exactly when it was 2 and
    the biome is one of the two of highest sensitivity. *)
Lemma criterio_bioma_level (db : cell) (nivel : Z) (razoes : list string) :
  0 <= nivel <= 2 ->
  let n2 := fst (criterio_bioma db nivel razoes) in
  (n2 = 3 <-> nivel = 2 /\ exists b, db = CStr b /\ highest b) /\
  nivel <= n2 <= 3.
Proof.
  intros Hn. unfold criterio_bioma.
  assert (Hno : ~ (nivel = 3)) by lia.
  destruct (truthy db) eqn:Ht; cbn [fst].
  - destruct db as [|f|s]; cbn [fst];
      try (split; [split; [lia | intros (_ & b & Hb & _); discriminate Hb] | lia]).
    destruct (cell_in (CStr s) SENSITIVE_BIOMES) eqn:Hs; cbn [fst].
    + destruct (cell_in (CStr s) ["Amazônia"; "Pantanal"]) eqn:Hh.
      * apply cell_in_highest in Hh.
        destruct (2 <=? nivel) eqn:H2; cbn [andb fst].
        -- apply Z.leb_le in H2. split; [split|]; try lia.
           intros _. split; [lia|]. now exists s.
        -- apply Z.leb_gt in H2. split; [split|]; lia.
      * rewrite andb_false_r. cbn [fst]. split; [split|]; try lia.
        intros (_ & b & [= <-] & Hb). apply cell_in_highest in Hb. congruence.
    + split; [split|]; try lia.
      intros (_ & b & [= <-] & Hb).
      apply highest_sensitive in Hb as [Hb _]. congruence.
  - split; [split|]; try lia.
    intros (_ & b & -> & Hb). apply highest_sensitive in Hb as [_ Hb].
    congruence.
Qed.

Lemma assess_core_run `{PyRuntime} `{Shapely} (g : biomes_gdf)
    (foco : gmap string cell) (t : list event) :
  assess_core g foco t =
  let '(db, r0, t') := determine_biome g foco t in
  (db, fst (criterio_bioma db (fst (criterio_frp foco r0))
                           (snd (criterio_frp foco r0))),
   snd (criterio_bioma db (fst (criterio_frp foco r0))
                       (snd (criterio_frp foco r0))), t').
Proof.
  unfold assess_core. run.
  destruct (determine_biome g foco t) as [[db r0] t'].
  destruct (criterio_frp foco r0) as [n1 r1]. simpl.
  destruct (criterio_bioma db n1 r1) as [n2 r2]. reflexivity.
Qed.

Lemma assess_run `{PyRuntime} `{Shapely} (g : biomes_gdf)
    (foco : gmap string cell) (t : list event) :
  assess_foco_criticidade g foco t =
  let '(_, nivel, razoes, t') := assess_core g foco t in
  (criticidade_label nivel, fallback_reason nivel razoes, t').
Proof.
  unfold assess_foco_criticidade. run.
  destruct (assess_core g foco t) as [[[db n] r] t']. reflexivity.
Qed.

Lemma assess_core_level `{PyRuntime} `{Shapely} (g : biomes_gdf)
    (foco : gmap string cell) (t : list event) :
  0 <= snd (fst (fst (assess_core g foco t))) <= 3.
Proof.
  rewrite assess_core_run.
  destruct (determine_biome g foco t) as [[db r0] t']. simpl.
  pose proof (criterio_frp_level foco r0) as H1.
  pose proof (criterio_bioma_level db _ (snd (criterio_frp foco r0)) H1) as [_ H2].
  simpl in H2. lia.
Qed.

Lemma label_critico (nivel : Z) : criticidade_label nivel = "Crítico" <-> nivel = 3.
Proof.
  unfold criticidade_label.
  destruct (nivel =? 3) eqn:E3; [apply Z.eqb_eq in E3; tauto|].
  apply Z.eqb_neq in E3.
  destruct (nivel =? 2); [split; [discriminate | lia]|].
  destruct (nivel =? 1); split; (discriminate || lia).
Qed.

Lemma label_baixo (nivel : Z) :
  0 <= nivel <= 3 -> (criticidade_label nivel = "Baixo" <-> nivel = 0).
Proof.
  intros Hn. unfold criticidade_label.
  destruct (nivel =? 3) eqn:E3;
    [apply Z.eqb_eq in E3; split; [discriminate | lia]|].
  destruct (nivel =? 2) eqn:E2;
    [apply Z.eqb_eq in E2; split; [discriminate | lia]|].
  destruct (nivel =? 1) eqn:E1;
    [apply Z.eqb_eq in E1; split; [discriminate | lia]|].
  apply Z.eqb_neq in E3, E2, E1. split; [lia | reflexivity].
Qed.

Lemma fallback_keeps (nivel : Z) (razoes : list string) :
  razoes <> [] -> fallback_reason nivel razoes = razoes.
Proof. destruct razoes; [congruence | reflexivity]. Qed.

(** ** The classifier: the claims *)

Lemma effective_biome_run `{Shapely} (g : biomes_gdf)
    (foco : gmap string cell) (t : list event) :
  fst (fst (determine_biome g foco t)) = effective_biome g foco.
Proof.
  unfold effective_biome. now rewrite (determine_biome_answer g foco t []).
Qed.

(** C1: a record whose frp parses to a number at or above
    RISK_FRP_THRESHOLD and whose effective biome is Amazônia or Pantanal
    is classified Crítico, its reasons hold the FRP sentence with the
    value and a sentence naming the biome; and Crítico is the tier only of
    such records. *)
Theorem critico_iff_high_frp_and_highest_biome `{PyRuntime} `{Shapely}
    (g : biomes_gdf) (foco : gmap string cell) (t : list event) :
  let label := fst (fst (assess_foco_criticidade g foco t)) in
  let razoes := snd (fst (assess_foco_criticidade g foco t)) in
  (forall v b,
     frp_value foco = Some v -> float_ge v RISK_FRP_THRESHOLD = true ->
     effective_biome g foco = CStr b -> highest b ->
     label = "Crítico" /\ In (frp_reason v) razoes /\
     exists r, In r razoes /\ is_substring b r = true) /\
  (label = "Crítico" ->
     exists v b,
       frp_value foco = Some v /\ float_ge v RISK_FRP_THRESHOLD = true /\
       effective_biome g foco = CStr b /\ highest b).
Proof.
  cbn zeta. rewrite assess_run, assess_core_run.
  pose proof (effective_biome_run g foco t) as Heff.
  pose proof (determine_biome_reasons g foco t) as Hr0.
  destruct (determine_biome g foco t) as [[db r0] t'].
  specialize (Hr0 db r0 t' eq_refl). cbn [fst snd] in *.
  pose proof (criterio_frp_level foco r0) as Hl1.
  pose proof (criterio_bioma_level db _ (snd (criterio_frp foco r0)) Hl1)
    as [Hl3 Hl2]. cbn zeta in Hl3, Hl2.
  rewrite criterio_frp_cases in *.
  split.
  - intros v b Hv Hge Hb Hhigh. rewrite Hv, Hge in *. cbn [fst snd] in *.
    subst db. rewrite Hb in *.
    split; [apply label_critico, Hl3; split; [reflexivity | now exists b]|].
    unfold criterio_bioma.
    destruct (highest_sensitive b Hhigh) as [Hs Ht]. rewrite Ht, Hs.
    apply cell_in_highest in Hhigh as Hin. rewrite Hin. cbn [Z.leb andb snd].
    replace (2 <=? 2) with true by reflexivity. cbn [andb snd].
    destruct Hr0 as [-> | (s & [= <-] & ->)].
    + cbn [app existsb]. rewrite geo_not_in_frp. cbn [orb negb app].
      assert (Hmention : is_substring b (sensitive_reason b) = true)
        by (destruct Hhigh as [-> | ->]; reflexivity).
      rewrite fallback_keeps by discriminate.
      split; [now left|]. exists (sensitive_reason b). split; [|assumption].
      right; now left.
    + cbn [app existsb]. rewrite is_substring_refl. cbn [orb negb].
      assert (Hmention : is_substring b (geo_reason b) = true)
        by (destruct Hhigh as [-> | ->]; reflexivity).
      rewrite fallback_keeps by discriminate.
      split; [right; now left|]. exists (geo_reason b). split; [|assumption].
      now left.
  - intros Hlabel. apply label_critico, Hl3 in Hlabel as [Hn (b & -> & Hb)].
    destruct (frp_value foco) as [v|]; [|discriminate Hn].
    destruct (float_ge v RISK_FRP_THRESHOLD) eqn:Hge.
    + exists v, b. rewrite <- Heff. auto.
    + destruct (float_ge v RISK_FRP_THRESHOLD_half); discriminate Hn.
Qed.

(** C2: the reasons returned are never empty: when no reason was recorded
    and the tier is above Baixo the generic sentence is the one reason,
    when none was recorded and the tier is Baixo the no-criterion sentence
    is, and recorded reasons are returned as they are. *)
Theorem reasons_at_least_one `{PyRuntime} `{Shapely}
    (g : biomes_gdf) (foco : gmap string cell) (t : list event) :
  let recorded := snd (fst (assess_core g foco t)) in
  let label := fst (fst (assess_foco_criticidade g foco t)) in
  let razoes := snd (fst (assess_foco_criticidade g foco t)) in
  (1 <= length razoes)%nat /\
  (recorded = [] -> label <> "Baixo" -> razoes = [generic_reason]) /\
  (recorded = [] -> label = "Baixo" -> razoes = [none_reason]) /\
  (recorded <> [] -> razoes = recorded).
Proof.
  cbn zeta. rewrite assess_run.
  pose proof (assess_core_level g foco t) as Hlevel.
  destruct (assess_core g foco t) as [[[db nivel] recorded] t'].
  cbn [fst snd] in *.
  pose proof (label_baixo nivel Hlevel) as Hbaixo.
  unfold fallback_reason.
  destruct recorded as [|r rs].
  - destruct (0 <? nivel) eqn:Hpos.
    + apply Z.ltb_lt in Hpos. repeat split; cbn; auto; try congruence.
      intros _ Hl. apply Hbaixo in Hl. lia.
    + apply Z.ltb_ge in Hpos.
      assert (Hzero : nivel = 0) by lia. subst nivel. cbn [Z.eqb].
      repeat split; cbn; auto; try congruence.
  - repeat split; cbn; try lia; congruence.
Qed.

(** C5: for a record whose [bioma] field is present and non-null, the
    tier and the reasons are the same under any two biome indexes (of any
    geometry library), and the lookup is not entered: the trace of spatial
    work is left as it was. *)
Theorem explicit_biome_ignores_index `{PyRuntime} (S1 S2 : Shapely)
    (g1 : @biomes_gdf S1) (g2 : @biomes_gdf S2)
    (foco : gmap string cell) (t1 t2 : list event) :
  has_notna foco "bioma" = true ->
  fst (@assess_foco_criticidade _ S1 g1 foco t1)
  = fst (@assess_foco_criticidade _ S2 g2 foco t2) /\
  snd (@assess_foco_criticidade _ S1 g1 foco t1) = t1.
Proof.
  intros Hb. rewrite !assess_run, !assess_core_run.
  rewrite !determine_biome_explicit by assumption.
  split; reflexivity.
Qed.

Lemma lookup_result_run `{Shapely} (g : biomes_gdf)
    (foco : gmap string cell) (t : list event) :
  fst (get_biome_from_lat_lon g (default CNull (foco !! "lat"))
         (default CNull (foco !! "lon")) t) = lookup_result g foco.
Proof. unfold lookup_result. apply get_biome_answer. Qed.

(** C6: a record whose frp is present, at or above half the threshold
    and below the threshold, with no explicit biome and an unknown lookup,
    is classified Médio with the generic sentence as its one reason. *)
Theorem medium_frp_has_only_generic_reason `{PyRuntime} `{Shapely}
    (g : biomes_gdf) (foco : gmap string cell) (t : list event) (v : pyfloat) :
  frp_value foco = Some v ->
  float_ge v RISK_FRP_THRESHOLD_half = true ->
  float_ge v RISK_FRP_THRESHOLD = false ->
  has_notna foco "bioma" = false ->
  lookup_result g foco = None ->
  fst (assess_foco_criticidade g foco t) = ("Médio", [generic_reason]).
Proof.
  intros Hv Hhalf Hthr Hb Hlook.
  rewrite assess_run, assess_core_run.
  assert (Hdet : exists t', determine_biome g foco t = (CNull, [], t')).
  { unfold determine_biome. rewrite Hb. run.
    destruct (has_notna foco "lat" && has_notna foco "lon"); [|now exists t].
    pose proof (lookup_result_run g foco t) as Hrun.
    destruct (get_biome_from_lat_lon g _ _ t) as [b t']. simpl in Hrun.
    rewrite Hlook in Hrun. subst b. now exists t'. }
  destruct Hdet as [t' ->].
  rewrite criterio_frp_cases, Hv, Hthr, Hhalf. reflexivity.
Qed.

(** ** Frames *)


Lemma elem_of_add_column (c c' : string) (cols : list string) :
  c' ∈ add_column c cols <-> c' ∈ cols \/ c' = c.
Proof.
  unfold add_column. case_bool_decide as Hc.
  - split; [now left | intros [?| ->]; assumption].
  - rewrite elem_of_app, list_elem_of_singleton. reflexivity.
Qed.







Lemma columns_ensure_column (c0 c : string) (df : frame cell) :
  c ∈ columns (ensure_column c0 df) <->
  c ∈ columns df \/ (c = c0 /\ c0 ∉ columns df).
Proof.
  unfold ensure_column, has_column. case_bool_decide as H0.
  - split; [now left | intros [?|[_ ?]]; [assumption | contradiction]].
  - cbn [set_column columns]. rewrite elem_of_add_column. split.
    + intros [?| ->]; [now left | now right].
    + intros [?|[-> _]]; [now left | now right].
Qed.







Lemma coordinate_columns (c : string) :
  c = "frp" \/ c = "lat" \/ c = "lon" -> c ∈ ["frp"; "lat"; "lon"].
Proof. rewrite !elem_of_cons. tauto. Qed.




(** ** The fetchers *)

Lemma copy_chunks_run (path : string) (body : list io_step) :
  forall (w : world) (fs : gmap string (list Byte.byte)) (acc : list Byte.byte),
    copy_chunks path body (with_files (<[path := acc]> fs) w)
    = (loop_error body, with_files (<[path := acc ++ written body]> fs) w).
Proof.
  induction body as [|step rest IH]; intros w fs acc.
  - cbn. now rewrite app_nil_r.
  - destruct step as [[|b data] [|landed] | e];
      cbn [copy_chunks written loop_error]; unfold ret;
      rewrite ?app_nil_r; try reflexivity.
    + unfold bind, write, with_files. cbn [files dirs requests].
      rewrite alter_insert_eq.
      specialize (IH w fs (acc ++ b :: data)). unfold with_files in IH.
      cbn [files dirs requests] in IH. rewrite IH, <- app_assoc. reflexivity.
    + unfold bind, write, with_files. cbn [files dirs requests].
      now rewrite alter_insert_eq.
Qed.

Lemma download_run (net : network) (url path : string) (w : world) :
  download net url path w
  = (transfer_error (net url),
     {| dirs := dirs w; files := files_after (net url) path (files w);
        requests := requests w ++ [url] |}).
Proof.
  unfold download, bind, session_get, files_after, transfer_error, file_opened.
  destruct (net url) as [e | status [|] body]; cbn [body_of];
    try reflexivity; destruct (400 <=? status); cbn [negb]; try reflexivity.
  unfold open_wb.
  pose proof (copy_chunks_run path body
    {| dirs := dirs w; files := files w; requests := requests w ++ [url] |}
    (files w) []) as Hrun.
  unfold with_files in *. cbn [files dirs requests app] in *.
  exact Hrun.
Qed.

Lemma fetch_daily_run (net : network) (d : date) (w : world) :
  fetch_daily_fire_csv net d w
  = fetched (net (daily_url d)) (daily_url d) (daily_path d) w.
Proof.
  unfold fetch_daily_fire_csv, bind, ensure_dir, ret.
  rewrite download_run. reflexivity.
Qed.

Lemma fetch_10min_run (net : network) (t : datetime) (w : world) :
  minute t mod 10 = 0 ->
  fetch_10min_fire_csv net t w
  = fetched (net (slot_url t)) (slot_url t) (slot_path t) w.
Proof.
  intros Hmin. unfold fetch_10min_fire_csv.
  rewrite Hmin. cbn [Z.eqb negb].
  unfold bind, ensure_dir, ret. rewrite download_run. reflexivity.
Qed.

(** C9: for a target datetime whose minute is not a multiple of 10,
    [fetch_10min_fire_csv] returns None and leaves the world as it was: no
    request is issued, no directory or file is created or changed. *)
Theorem fetch_10min_rejects_minute (net : network) (t : datetime) (w : world) :
  minute t mod 10 <> 0 ->
  fetch_10min_fire_csv net t w = (PyNone, w).
Proof.
  intros Hmin. unfold fetch_10min_fire_csv.
  destruct (minute t mod 10 =? 0) eqn:E; [apply Z.eqb_eq in E; contradiction|].
  reflexivity.
Qed.



(** ** All the slots of a day *)

Lemma day_slots_spec (d : date) (t : datetime) :
  t ∈ day_slots d -> date_of t = d /\ minute t mod 10 = 0.
Proof.
  unfold day_slots. intros Ht.
  apply list_elem_of_bind in Ht as (h & Ht & _).
  apply list_elem_of_bind in Ht as (m & Ht & Hm).
  apply list_elem_of_singleton in Ht as ->. cbn [date_of minute].
  apply list_elem_of_fmap in Hm as (k & -> & _).
  split; [reflexivity|]. rewrite Z.mul_comm. apply Z_mod_mult.
Qed.

Lemma mapM_fetch_10min_run (net : network) (ts : list datetime) :
  Forall (fun t => minute t mod 10 = 0) ts ->
  forall w : world,
    fst (mapM (fetch_10min_fire_csv net) ts w)
    = (fun t => handle (slot_path t) (transfer_error (net (slot_url t)))) <$> ts
    /\ files (snd (mapM (fetch_10min_fire_csv net) ts w))
       = files_after_slots net ts (files w).
Proof.
  induction 1 as [|t ts Hmin _ IH]; intros w; [split; reflexivity|].
  cbn [mapM]. unfold bind. rewrite fetch_10min_run by assumption.
  unfold fetched.
  match goal with
  | |- context [mapM _ ts ?w1] => specialize (IH w1);
      destruct (mapM (fetch_10min_fire_csv net) ts w1) as [rs w2]
  end.
  cbn [fst snd files ret] in *. destruct IH as [-> ->].
  split; reflexivity.
Qed.

Lemma files_after_other (o : get_outcome) (path p : string)
    (fs : gmap string (list Byte.byte)) :
  p <> path -> files_after o path fs !! p = fs !! p.
Proof.
  intros Hne. unfold files_after. destruct (file_opened o); [|reflexivity].
  now rewrite lookup_insert_ne by congruence.
Qed.

Lemma files_after_slots_cons (net : network) (t : datetime)
    (ts : list datetime) (fs : gmap string (list Byte.byte)) :
  files_after_slots net (t :: ts) fs
  = files_after_slots net ts (files_after (net (slot_url t)) (slot_path t) fs).
Proof. reflexivity. Qed.

Lemma files_after_slots_other (net : network) (ts : list datetime) (p : string) :
  p ∉ slot_path <$> ts ->
  forall fs, files_after_slots net ts fs !! p = fs !! p.
Proof.
  induction ts as [|t ts IH]; intros Hp fs; [reflexivity|].
  rewrite fmap_cons, not_elem_of_cons in Hp. destruct Hp as [Hne Hp].
  rewrite files_after_slots_cons, (IH Hp). now apply files_after_other.
Qed.

Lemma files_after_slots_own (net : network) (ts : list datetime) (t : datetime) :
  NoDup (slot_path <$> ts) -> t ∈ ts ->
  file_opened (net (slot_url t)) = true ->
  forall fs,
    files_after_slots net ts fs !! slot_path t
    = Some (written (body_of (net (slot_url t)))).
Proof.
  intros Hnd Ht Hopen. induction ts as [|t0 ts IH]; intros fs.
  - inversion Ht.
  - rewrite fmap_cons in Hnd. apply NoDup_cons in Hnd as [Hfresh Hnd].
    rewrite files_after_slots_cons.
    apply elem_of_cons in Ht as [-> | Hin].
    + rewrite files_after_slots_other by assumption.
      unfold files_after. rewrite Hopen. apply lookup_insert_eq.
    + now apply IH.
Qed.

Lemma append_inj_l (a x y : string) : a +:+ x = a +:+ y -> x = y.
Proof.
  induction a as [|c a IH]; cbn; [tauto|]. intros [= Heq]. now apply IH.
Qed.

Lemma slot_path_of_tail_inj (d : date) : Inj (=) (=) (slot_path_of_tail d).
Proof.
  intros x y Heq. unfold slot_path_of_tail in Heq.
  repeat apply append_inj_l in Heq. exact Heq.
Qed.

Lemma slot_tails_NoDup : NoDup slot_tails.
Proof. apply (bool_decide_unpack _). vm_compute. reflexivity. Qed.

Lemma slot_paths_tails (d : date) :
  slot_path <$> day_slots d = slot_path_of_tail d <$> slot_tails.
Proof. reflexivity. Qed.

Lemma slot_paths_NoDup (d : date) : NoDup (slot_path <$> day_slots d).
Proof.
  rewrite slot_paths_tails.
  apply (NoDup_fmap_2 (slot_path_of_tail d)), slot_tails_NoDup.
Qed.

Lemma transferred_Some (o : get_outcome) (content : list Byte.byte) :
  transferred o = Some content <->
  transfer_error o = None /\ content = written (body_of o).
Proof.
  unfold transferred. destruct (transfer_error o); split.
  - discriminate.
  - intros [? _]. discriminate.
  - intros [= <-]. auto.
  - intros [_ ->]. reflexivity.
Qed.

Lemma completed_opened (o : get_outcome) :
  transfer_error o = None -> file_opened o = true.
Proof.
  destruct o as [e | status [|] body]; cbn; try discriminate;
    destruct (400 <=? status); cbn; (discriminate || reflexivity).
Qed.

Lemma handle_Path (path p : string) (r : option exn) :
  handle path r = Path p <-> r = None /\ p = path.
Proof.
  destruct r as [[]|]; cbn; split; try discriminate;
    try (intros [? _]; discriminate).
  - intros [= ->]. auto.
  - intros [_ ->]. reflexivity.
Qed.

Lemma has_data_Path `{Pandas} (w : world) (p : string) :
  has_data w (Path p) = true <->
  exists content, files w !! p = Some content /\ holds_data content.
Proof.
  unfold has_data, holds_data. destruct (files w !! p) as [content|].
  - rewrite andb_true_iff, Nat.ltb_lt. split.
    + intros [Hlen Hrows]. exists content. split; [reflexivity|].
      split; [assumption|].
      destruct (read_csv_rows content) as [n|]; [|discriminate].
      exists n. split; [reflexivity|].
      apply negb_true_iff, Nat.eqb_neq in Hrows. lia.
    + intros (c & [= <-] & Hlen & n & -> & Hn). split; [assumption|].
      apply negb_true_iff, Nat.eqb_neq. lia.
  - split; [discriminate | intros (c & Hc & _); discriminate].
Qed.

Lemma gathered_paths `{Pandas} (w : world) (results : list fetch_result)
    (p : string) :
  p ∈ omap path_of (filter (fun r => has_data w r = true) results) <->
  Path p ∈ results /\ has_data w (Path p) = true.
Proof.
  rewrite list_elem_of_omap. split.
  - intros (r & Hr & Hp). apply list_elem_of_filter in Hr as [Hd Hr].
    destruct r; try discriminate. injection Hp as ->. auto.
  - intros [Hr Hd]. exists (Path p). split; [|reflexivity].
    apply list_elem_of_filter. auto.
Qed.

Lemma slot_path_url (t t' : datetime) :
  slot_path t = slot_path t' -> slot_url t = slot_url t'.
Proof.
  unfold slot_path, slot_url. intros Heq. apply append_inj_l in Heq.
  now rewrite Heq.
Qed.

(** C7: every path returned by [fetch_all_10min_slots_for_day] is the
    local path of a slot of the day whose transfer completed, and the
    file is there, of more than 0 bytes, with a data row after the
    header; a slot is listed exactly when its own transfer completed with
    such a content, whatever happened to the other slots. *)
Theorem fetch_all_lists_slots_with_data `{Pandas}
    (net : network) (d : date) (w : world) :
  let paths := fst (fetch_all_10min_slots_for_day net d w) in
  let w' := snd (fetch_all_10min_slots_for_day net d w) in
  (forall p, p ∈ paths ->
     exists t content,
       t ∈ day_slots d /\ p = slot_path t /\
       transferred (net (slot_url t)) = Some content /\
       files w' !! p = Some content /\ holds_data content) /\
  (forall t, t ∈ day_slots d ->
     (slot_path t ∈ paths <->
      exists content,
        transferred (net (slot_url t)) = Some content /\ holds_data content)).
Proof.
  cbn zeta. unfold fetch_all_10min_slots_for_day, bind.
  assert (Hmin : Forall (fun t => minute t mod 10 = 0) (day_slots d)).
  { apply Forall_forall. intros t Ht. now apply day_slots_spec in Ht. }
  destruct (mapM_fetch_10min_run net (day_slots d) Hmin w) as [Hres Hfiles].
  destruct (mapM (fetch_10min_fire_csv net) (day_slots d) w) as [results w1].
  cbn [fst snd] in *.
  assert (Hsound : forall p,
    p ∈ omap path_of (filter (fun r => has_data w1 r = true) results) ->
    exists t content,
      t ∈ day_slots d /\ p = slot_path t /\
      transferred (net (slot_url t)) = Some content /\
      files w1 !! p = Some content /\ holds_data content).
  { intros p Hp. apply gathered_paths in Hp as [Hin Hdata].
    rewrite Hres in Hin. apply list_elem_of_fmap in Hin as (t & Heq & Ht).
    symmetry in Heq. apply handle_Path in Heq as [Hdone ->].
    apply has_data_Path in Hdata as (content & Hfile & Hvalid).
    exists t, content. repeat split; try assumption; try apply Hvalid.
    apply transferred_Some. split; [assumption|].
    rewrite Hfiles, (files_after_slots_own net (day_slots d) t) in Hfile;
      [congruence | apply slot_paths_NoDup | assumption
       | now apply completed_opened]. }
  split; [exact Hsound|].
  intros t Ht. split.
  - intros Hp. destruct (Hsound _ Hp) as (t' & content & _ & Heq & Htr & _ & Hv).
    exists content. rewrite (slot_path_url t t' Heq). auto.
  - intros (content & Htr & Hvalid).
    apply transferred_Some in Htr as [Hdone ->].
    apply gathered_paths. split.
    + rewrite Hres. apply list_elem_of_fmap. exists t. split; [|assumption].
      symmetry. now apply handle_Path.
    + apply has_data_Path. exists (written (body_of (net (slot_url t)))).
      split; [|assumption].
      rewrite Hfiles. apply files_after_slots_own;
        [apply slot_paths_NoDup | assumption | now apply completed_opened].
Qed.

(** ** Sorting by a column *)

Lemma string_leb_trans (a b c : string) :
  String.leb a b = true -> String.leb b c = true -> String.leb a c = true.
Proof.
  unfold String.leb. revert b c.
  induction a as [|x a IH]; intros [|y b] [|z c]; cbn;
    try (intros; first [discriminate | reflexivity]).
  unfold Ascii.compare.
  destruct (N.compare_spec (N_of_ascii x) (N_of_ascii y));
    destruct (N.compare_spec (N_of_ascii y) (N_of_ascii z));
    destruct (N.compare_spec (N_of_ascii x) (N_of_ascii z));
    try (intros; first [discriminate | reflexivity | lia]).
  apply IH.
Qed.

Lemma float_ge_total (x y : pyfloat) :
  x <> Fnan -> y <> Fnan -> float_ge x y = true \/ float_ge y x = true.
Proof.
  destruct x as [|[]|p], y as [|[]|q]; cbn; intros; try tauto.
  rewrite !Qle_bool_iff. destruct (Qlt_le_dec p q); [right | left];
    [now apply Qlt_le_weak | assumption].
Qed.

Lemma float_ge_trans (x y z : pyfloat) :
  float_ge x y = true -> float_ge y z = true -> float_ge x z = true.
Proof.
  destruct x as [|[]|p], y as [|[]|q], z as [|[]|r]; cbn;
    try (intros; first [discriminate | reflexivity]).
  rewrite !Qle_bool_iff. intros H1 H2. eapply Qle_trans; eassumption.
Qed.

Lemma desc_ge_total (a b : lcell) : desc_ge a b = true \/ desc_ge b a = true.
Proof.
  destruct a as [x | [|[|[]|p]|s]], b as [y | [|[|[]|q]|u]]; cbn;
    try tauto; try (rewrite !Z.leb_le; lia).
  - apply (float_ge_total (Ffin p) (Ffin q)); discriminate.
  - apply (String.leb_total u s).
Qed.

Lemma desc_ge_trans (a b c : lcell) :
  desc_ge a b = true -> desc_ge b c = true -> desc_ge a c = true.
Proof.
  destruct a as [x | [|[|[]|p]|s]], b as [y | [|[|[]|q]|u]],
    c as [z | [|[|[]|r]|v]]; cbn;
    try (intros; first [discriminate | reflexivity]);
    try (rewrite !Z.leb_le; lia).
  - rewrite !Qle_bool_iff. intros H1 H2. eapply Qle_trans; eassumption.
  - intros H1 H2. eapply string_leb_trans; eassumption.
Qed.

#[export] Instance row_desc_total (by_ : string) : Total (row_desc by_).
Proof. intros r1 r2. apply desc_ge_total. Qed.

#[export] Instance row_desc_trans (by_ : string) : Transitive (row_desc by_).
Proof. intros r1 r2 r3. apply desc_ge_trans. Qed.

Lemma sort_values_desc_sorted (by_ : string) (df sorted : frame lcell) :
  sort_values_desc by_ df = Some sorted ->
  columns sorted = columns df /\
  StronglySorted (row_desc by_) (rows sorted) /\
  rows sorted ≡ₚ rows df.
Proof.
  unfold sort_values_desc. destruct (sortable _); [|discriminate].
  intros [= <-]. cbn [columns rows]. split; [reflexivity|]. split.
  - apply StronglySorted_merge_sort; apply _.
  - apply merge_sort_Permutation.
Qed.

(** ** The daily range *)

Lemma mapM_fetch_daily_run (net : network) (days : list date) :
  forall w : world,
    fst (mapM (fetch_daily_fire_csv net) days w)
    = (fun d => handle (daily_path d) (transfer_error (net (daily_url d))))
        <$> days
    /\ files (snd (mapM (fetch_daily_fire_csv net) days w))
       = files_after_days net days (files w).
Proof.
  induction days as [|d days IH]; intros w; [split; reflexivity|].
  cbn [mapM]. unfold bind. rewrite fetch_daily_run. unfold fetched.
  match goal with
  | |- context [mapM _ days ?w1] => specialize (IH w1);
      destruct (mapM (fetch_daily_fire_csv net) days w1) as [rs w2]
  end.
  cbn [fst snd files ret] in *. destruct IH as [-> ->].
  split; reflexivity.
Qed.

Lemma files_after_present (o : get_outcome) (path p : string)
    (fs : gmap string (list Byte.byte)) :
  is_Some (fs !! p) -> is_Some (files_after o path fs !! p).
Proof.
  intros Hp. unfold files_after. destruct (file_opened o); [|assumption].
  destruct (decide (path = p)) as [->|Hne].
  - rewrite lookup_insert_eq. eauto.
  - now rewrite lookup_insert_ne.
Qed.

Lemma files_after_days_present (net : network) (days : list date) (p : string) :
  forall fs, is_Some (fs !! p) -> is_Some (files_after_days net days fs !! p).
Proof.
  induction days as [|d days IH]; intros fs Hp; [assumption|].
  apply (IH (files_after (net (daily_url d)) (daily_path d) fs)).
  now apply files_after_present.
Qed.

Lemma files_after_days_opened (net : network) (days : list date) (d : date) :
  d ∈ days -> file_opened (net (daily_url d)) = true ->
  forall fs, is_Some (files_after_days net days fs !! daily_path d).
Proof.
  induction days as [|d0 days IH]; intros Hd Hopen fs; [inversion Hd|].
  apply elem_of_cons in Hd as [-> | Hd].
  - apply (files_after_days_present net days (daily_path d0)
             (files_after (net (daily_url d0)) (daily_path d0) fs)).
    unfold files_after. rewrite Hopen, lookup_insert_eq. eauto.
  - apply (IH Hd Hopen).
Qed.

Lemma load_data_agrees `{Loader} (memo : gmap string (option (frame lcell)))
    (fs : gmap string (list Byte.byte)) (p : string) (s : app_state) :
  agrees memo fs s ->
  fst (load_data p s) = table_of memo fs p /\ agrees memo fs (snd (load_data p s)).
Proof.
  intros [Hfs Hmemo]. unfold load_data.
  pose proof (Hmemo p) as Hp. unfold table_of in Hp at 1.
  destruct (cache s !! p) as [r|] eqn:Hc; cbn [fst snd].
  - split; [assumption | now split].
  - rewrite Hfs. split; [assumption|]. split; [assumption|].
    intros q. cbn [cache]. unfold table_of at 1.
    destruct (decide (p = q)) as [<-|Hne].
    + rewrite lookup_insert_eq. assumption.
    + rewrite lookup_insert_ne by assumption. apply (Hmemo q).
Qed.

Lemma load_results_run `{Loader} (memo : gmap string (option (frame lcell)))
    (fs : gmap string (list Byte.byte)) (results : list fetch_result) :
  forall s, agrees memo fs s ->
    fst (load_results results s) = results ≫= contribution memo fs /\
    agrees memo fs (snd (load_results results s)).
Proof.
  induction results as [|r results IH]; intros s Hs; [now split|].
  cbn [load_results]. unfold bind.
  assert (Hone : fst (load_result r s) = contribution memo fs r /\
                 agrees memo fs (snd (load_result r s))).
  { unfold load_result, contribution. destruct r as [p| |e]; [|now split..].
    destruct Hs as [Hfs Hmemo]. rewrite Hfs.
    destruct (fs !! p); [|now split].
    unfold bind, ret.
    destruct (load_data_agrees memo fs p s (conj Hfs Hmemo)) as [Hv Hs'].
    destruct (load_data p s) as [df s']. cbn [fst snd] in *.
    now rewrite Hv. }
  destruct (load_result r s) as [here s1]. cbn [fst snd] in Hone.
  destruct Hone as [-> Hs1].
  destruct (IH s1 Hs1) as [Hmore Hs2].
  destruct (load_results results s1) as [more s2]. cbn [fst snd ret] in *.
  rewrite Hmore, bind_cons. now split.
Qed.

Lemma daily_frames_run `{Loader} (net : network) (start_date end_date : date)
    (s : app_state) :
  fst (daily_frames net start_date end_date s)
  = day_tables net s (days_of_range start_date end_date).
Proof.
  unfold daily_frames, bind, on_disk, day_tables.
  set (days := days_of_range start_date end_date).
  destruct (mapM_fetch_daily_run net days (disk s)) as [Hres Hfiles].
  destruct (mapM (fetch_daily_fire_csv net) days (disk s)) as [results w1].
  cbn [fst snd] in *. subst results.
  set (fs := files_after_days net days (files (disk s))) in *.
  assert (Hagree : agrees (cache s) fs {| disk := w1; cache := cache s |})
    by (split; [assumption | reflexivity]).
  match goal with
  | |- context [load_results ?rs _] =>
      destruct (load_results_run (cache s) fs rs _ Hagree) as [-> _]
  end.
  rewrite list_fmap_bind.
  assert (Hext : forall ds, ds ⊆ days ->
    ds ≫= (contribution (cache s) fs
             ∘ (fun d => handle (daily_path d)
                           (transfer_error (net (daily_url d)))))
    = ds ≫= (fun d => match transfer_error (net (daily_url d)) with
                      | None => kept (table_of (cache s) fs (daily_path d))
                      | Some _ => []
                      end)).
  { induction ds as [|d ds IH]; intros Hsub; [reflexivity|].
    rewrite !bind_cons, IH by set_solver. f_equal.
    unfold compose, contribution.
    destruct (transfer_error (net (daily_url d))) as [e|] eqn:He.
    - destruct e; reflexivity.
    - cbn [handle].
      destruct (files_after_days_opened net days d) with (fs := files (disk s))
        as [content Hc]; [set_solver | now apply completed_opened |].
      fold fs in Hc. now rewrite Hc. }
  now apply Hext.
Qed.

Lemma sortable_parsed (keys : list lcell) :
  Forall parsed_or_null keys -> sortable keys = true.
Proof.
  intros Hall. unfold sortable.
  assert (Hk : Forall (fun k => k = KStamp) (omap key_kind keys)).
  { induction Hall as [|v keys Hv _ IH]; [constructor|].
    change (omap key_kind (v :: keys))
      with (match key_kind v with
            | Some k => k :: omap key_kind keys
            | None => omap key_kind keys
            end).
    destruct Hv as [-> | [t ->]]; [assumption|].
    cbn [key_kind]. now constructor. }
  destruct (omap key_kind keys) as [|k ks]; [reflexivity|].
  apply Forall_cons in Hk as [-> Hks]. apply forallb_forall.
  intros k Hin. apply list_elem_of_In in Hin.
  rewrite Forall_forall in Hks. now rewrite (Hks k Hin).
Qed.

(** C8: the 10-minute path returns its rows sorted in descending order of
    the [event_datetime] column, nulls last, when the frame has that
    column, and they are the rows of the concatenated slot tables; the
    sort does not fail when the column holds parsed timestamps or nulls;
    the daily-range path returns the concatenation of the per-day tables
    in the order of the days, each row filled to the common columns, with
    no sort. *)
Theorem aggregation_row_order `{Pandas} `{Loader} (net : network) :
  (forall (days_list : list date) (s : app_state) (df : frame lcell),
     fst (load_and_combine_10min_data_for_days net days_list s) = Frame df ->
     has_column df "event_datetime" = true ->
     StronglySorted (row_desc "event_datetime") (rows df) /\
     rows df ≡ₚ rows (pd_concat (fst (slot_frames net days_list s)))) /\
  (forall (days_list : list date) (s : app_state),
     Forall (fun r => parsed_or_null (sort_key "event_datetime" r))
            (rows (pd_concat (fst (slot_frames net days_list s)))) ->
     fst (load_and_combine_10min_data_for_days net days_list s) <> TypeError) /\
  (forall (start_date end_date : date) (s : app_state),
     let dfs := day_tables net s (days_of_range start_date end_date) in
     fst (fetch_data_for_range net start_date end_date s)
     = match dfs with
       | [] => NoData
       | _ => Frame (pd_concat dfs)
       end /\
     rows (pd_concat dfs)
     = dfs ≫= (fun d => fill_row (concat_columns dfs) <$> rows d)).
Proof.
  split; [|split].
  - intros days_list s df. unfold load_and_combine_10min_data_for_days, bind.
    destruct (slot_frames net days_list s) as [dfs s1]. cbn [fst].
    destruct dfs as [|d0 dfs]; [discriminate|].
    set (combined := pd_concat (d0 :: dfs)).
    destruct (has_column combined "event_datetime") eqn:Hcol.
    + destruct (sort_values_desc "event_datetime" combined) as [sorted|] eqn:Hs;
        [|discriminate].
      intros [= <-] _.
      apply sort_values_desc_sorted in Hs as (_ & Hsorted & Hperm). auto.
    + intros [= <-] Hcol'. congruence.
  - intros days_list s. unfold load_and_combine_10min_data_for_days, bind.
    destruct (slot_frames net days_list s) as [dfs s1]. cbn [fst].
    destruct dfs as [|d0 dfs]; [discriminate|].
    set (combined := pd_concat (d0 :: dfs)). intros Hkeys.
    destruct (has_column combined "event_datetime"); [|discriminate].
    unfold sort_values_desc. rewrite sortable_parsed; [discriminate|].
    now apply Forall_fmap.
  - intros start_date end_date s. cbn zeta. split; [|reflexivity].
    unfold fetch_data_for_range, bind.
    rewrite <- daily_frames_run.
    destruct (daily_frames net start_date end_date s) as [[|d0 dfs] s1];
      reflexivity.
Qed.

(** * The statements at work on the sample data *)

Import Sample.

Example scenario_A :
  fst (assess_foco_criticidade sample_gdf foco_A [])
  = ("Crítico", [geo_reason "Amazônia"; "FRP elevado (80.00 MW >= 75.0 MW)"]).
Proof. vm_compute. reflexivity. Qed.

Example scenario_B :
  fst (assess_foco_criticidade sample_gdf foco_B []) = ("Baixo", [none_reason]).
Proof. vm_compute. reflexivity. Qed.

Lemma critico_witness :
  frp_value foco_A = Some (Ffin (inject_Z 80)) /\
  float_ge (Ffin (inject_Z 80)) RISK_FRP_THRESHOLD = true /\
  effective_biome sample_gdf foco_A = CStr "Amazônia" /\
  highest "Amazônia" /\
  fst (fst (assess_foco_criticidade sample_gdf foco_A [])) = "Crítico".
Proof.
  assert (Hv : frp_value foco_A = Some (Ffin (inject_Z 80)))
    by (vm_compute; reflexivity).
  assert (Hge : float_ge (Ffin (inject_Z 80)) RISK_FRP_THRESHOLD = true)
    by reflexivity.
  assert (Hb : effective_biome sample_gdf foco_A = CStr "Amazônia")
    by (vm_compute; reflexivity).
  assert (Hh : highest "Amazônia") by (left; reflexivity).
  refine (conj Hv (conj Hge (conj Hb (conj Hh _)))).
  exact (proj1 (proj1 (critico_iff_high_frp_and_highest_biome
                         sample_gdf foco_A []) _ _ Hv Hge Hb Hh)).
Defined.

Lemma reasons_witness :
  (1 <= length (snd (fst (assess_foco_criticidade sample_gdf foco_B []))))%nat.
Proof. exact (proj1 (reasons_at_least_one sample_gdf foco_B [])). Defined.

Lemma first_match_witness :
  exists rows p,
    sample_gdf = Some rows /\ rows <> [] /\
    isna (num (-3)) || isna (num (-60)) = false /\
    Point (num (-60)) (num (-3)) = Some p /\
    match get_biome_from_lat_lon sample_gdf (num (-3)) (num (-60)) [] with
    | (Some name, t') =>
        exists (k : nat) (row : biome_row),
          rows !! k = Some row /\ within p (row_geometry row) = true /\
          row_name row = name /\
          (forall j row', (j < k)%nat -> rows !! j = Some row' ->
                          within p (row_geometry row') = false) /\
          t' = [] ++ Lookup (num (-3)) (num (-60))
                 :: (PolygonTest <$> seq 0 (S k))
    | (None, t') =>
        (forall row, row ∈ rows -> within p (row_geometry row) = false) /\
        t' = [] ++ Lookup (num (-3)) (num (-60))
               :: (PolygonTest <$> seq 0 (length rows))
    end.
Proof.
  eexists _, _. split; [reflexivity|]. split; [discriminate|].
  split; [reflexivity|]. split; [reflexivity|].
  apply (proj2 (proj2 (get_biome_from_lat_lon_first_match
                         sample_gdf (num (-3)) (num (-60)) [])));
    first [reflexivity | discriminate].
Defined.

Lemma explicit_biome_witness :
  has_notna foco_explicit "bioma" = true /\
  fst (assess_foco_criticidade sample_gdf foco_explicit [])
  = fst (assess_foco_criticidade None foco_explicit []) /\
  snd (assess_foco_criticidade sample_gdf foco_explicit []) = [].
Proof.
  assert (Hb : has_notna foco_explicit "bioma" = true)
    by (vm_compute; reflexivity).
  split; [assumption|].
  exact (explicit_biome_ignores_index box_shapely box_shapely sample_gdf None
           foco_explicit [] [] Hb).
Defined.

Lemma medium_witness :
  frp_value foco_medium = Some (Ffin (inject_Z 40)) /\
  float_ge (Ffin (inject_Z 40)) RISK_FRP_THRESHOLD_half = true /\
  float_ge (Ffin (inject_Z 40)) RISK_FRP_THRESHOLD = false /\
  has_notna foco_medium "bioma" = false /\
  lookup_result sample_gdf foco_medium = None /\
  fst (assess_foco_criticidade sample_gdf foco_medium [])
  = ("Médio", [generic_reason]).
Proof.
  assert (Hv : frp_value foco_medium = Some (Ffin (inject_Z 40)))
    by (vm_compute; reflexivity).
  assert (Hb : has_notna foco_medium "bioma" = false)
    by (vm_compute; reflexivity).
  assert (Hl : lookup_result sample_gdf foco_medium = None)
    by (vm_compute; reflexivity).
  refine (conj Hv (conj eq_refl (conj eq_refl (conj Hb (conj Hl _))))).
  exact (medium_frp_has_only_generic_reason sample_gdf foco_medium [] _
           Hv eq_refl eq_refl Hb Hl).
Defined.


Lemma off_slot_witness :
  minute off_slot mod 10 <> 0 /\
  fetch_10min_fire_csv dropping_net off_slot empty_world = (PyNone, empty_world).
Proof.
  assert (Hm : minute off_slot mod 10 <> 0) by (vm_compute; discriminate).
  split; [assumption|].
  exact (fetch_10min_rejects_minute dropping_net off_slot empty_world Hm).
Defined.



Lemma slots_with_data_witness :
  midnight ∈ day_slots sample_day /\
  transferred (three_slot_net (slot_url midnight)) = Some two_rows_csv /\
  holds_data two_rows_csv /\
  slot_path midnight
    ∈ fst (fetch_all_10min_slots_for_day three_slot_net sample_day empty_world).
Proof.
  assert (Hin : midnight ∈ day_slots sample_day) by apply list_elem_of_here.
  assert (Htr : transferred (three_slot_net (slot_url midnight))
                = Some two_rows_csv) by (vm_compute; reflexivity).
  assert (Hdata : holds_data two_rows_csv).
  { split; [vm_compute; lia|]. exists 2%nat. split; [reflexivity | lia]. }
  refine (conj Hin (conj Htr (conj Hdata _))).
  apply (proj2 (fetch_all_lists_slots_with_data three_slot_net sample_day
                  empty_world) midnight Hin).
  exists two_rows_csv. split; assumption.
Defined.

Example slots_listed :
  fst (fetch_all_10min_slots_for_day three_slot_net sample_day empty_world)
  = ["output_data/raw/focos_10min_20240228_0000.csv";
     "output_data/raw/focos_10min_20240228_0020.csv"].
Proof. vm_compute. reflexivity. Qed.

Lemma sorted_witness :
  fst (load_and_combine_10min_data_for_days three_slot_net [sample_day]
         empty_state) = Frame combined_slots /\
  has_column combined_slots "event_datetime" = true /\
  StronglySorted (row_desc "event_datetime") (rows combined_slots).
Proof.
  assert (Hf : fst (load_and_combine_10min_data_for_days three_slot_net
                      [sample_day] empty_state) = Frame combined_slots)
    by (vm_compute; reflexivity).
  assert (Hc : has_column combined_slots "event_datetime" = true)
    by (vm_compute; reflexivity).
  refine (conj Hf (conj Hc _)).
  exact (proj1 (proj1 (aggregation_row_order three_slot_net)
                  [sample_day] empty_state combined_slots Hf Hc)).
Defined.

Example sorted_keys :
  sort_key "event_datetime" <$> rows combined_slots = [Stamp 9; Stamp 7; Stamp 5].
Proof. vm_compute. reflexivity. Qed.

(** * Further properties of the classifier *)

Lemma assess_answer `{PyRuntime} `{Shapely} (g : biomes_gdf)
    (foco : gmap string cell) (t u : list event) :
  fst (assess_foco_criticidade g foco t) = fst (assess_foco_criticidade g foco u).
Proof.
  rewrite !assess_run, !assess_core_run.
  pose proof (determine_biome_answer g foco t u) as Hans.
  destruct (determine_biome g foco t) as [[db r0] t'].
  destruct (determine_biome g foco u) as [[db' r0'] u'].
  cbn [fst] in Hans. injection Hans as <- <-. reflexivity.
Qed.

Lemma sensitive_truthy (db : cell) :
  cell_in db SENSITIVE_BIOMES = true -> truthy db = true.
Proof.
  destruct db as [|f|s]; cbn [cell_in]; try discriminate.
  destruct (String.eqb_spec s "") as [->|Hne]; [discriminate|].
  intros _. cbn [truthy]. now apply negb_true_iff, String.eqb_neq.
Qed.

Lemma criterio_bioma_table (db : cell) (nivel : Z) (razoes : list string) :
  fst (criterio_bioma db nivel razoes)
  = if cell_in db SENSITIVE_BIOMES then
      if (2 <=? nivel) && cell_in db ["Amazônia"; "Pantanal"]
      then Z.max nivel 3 else Z.max nivel 1
    else nivel.
Proof.
  unfold criterio_bioma.
  destruct (cell_in db SENSITIVE_BIOMES) eqn:Hs.
  - rewrite (sensitive_truthy db Hs).
    destruct db as [|f|s]; try discriminate Hs.
    destruct ((2 <=? nivel) && cell_in (CStr s) ["Amazônia"; "Pantanal"]);
      reflexivity.
  - destruct (truthy db); [|reflexivity].
    destruct db as [|f|s]; reflexivity.
Qed.

Lemma highest_is_sensitive (db : cell) :
  cell_in db ["Amazônia"; "Pantanal"] = true ->
  cell_in db SENSITIVE_BIOMES = true.
Proof.
  destruct db as [|f|s]; try discriminate. intros Hh.
  apply cell_in_highest in Hh. now apply highest_sensitive in Hh.
Qed.

Lemma threshold_above_half (v : pyfloat) :
  float_ge v RISK_FRP_THRESHOLD = true ->
  float_ge v RISK_FRP_THRESHOLD_half = true.
Proof.
  intros Hv. apply (float_ge_trans v RISK_FRP_THRESHOLD); [assumption|].
  reflexivity.
Qed.

Lemma label_by_table `{PyRuntime} `{Shapely}
    (g : biomes_gdf) (foco : gmap string cell) (t : list event) :
  fst (fst (assess_foco_criticidade g foco t))
  = tier_table (frp_high foco) (frp_half foco)
      (cell_in (effective_biome g foco) SENSITIVE_BIOMES)
      (cell_in (effective_biome g foco) ["Amazônia"; "Pantanal"]).
Proof.
  rewrite assess_run, assess_core_run.
  pose proof (effective_biome_run g foco t) as Heff.
  destruct (determine_biome g foco t) as [[db r0] t']. cbn [fst snd] in *.
  subst db. rewrite criterio_bioma_table, criterio_frp_cases.
  unfold frp_high, frp_half, tier_table.
  pose proof (highest_is_sensitive (effective_biome g foco)) as Hhs.
  destruct (frp_value foco) as [v|]; cbn [fst].
  - pose proof (threshold_above_half v) as Hhalf.
    destruct (float_ge v RISK_FRP_THRESHOLD); cbn [fst].
    + destruct (cell_in (effective_biome g foco) ["Amazônia"; "Pantanal"]).
      * now rewrite Hhs.
      * now destruct (cell_in (effective_biome g foco) SENSITIVE_BIOMES).
    + destruct (float_ge v RISK_FRP_THRESHOLD_half); cbn [fst];
        now destruct (cell_in (effective_biome g foco) SENSITIVE_BIOMES).
  - now destruct (cell_in (effective_biome g foco) SENSITIVE_BIOMES).
Qed.

(** X1: the tier is read off a table of four facts: frp at or above the
    threshold, frp at or above half of it, effective biome among the
    sensitive biomes, effective biome Amazônia or Pantanal. *)
Theorem tier_decision_table `{PyRuntime} `{Shapely}
    (g : biomes_gdf) (foco : gmap string cell) (t : list event) :
  fst (fst (assess_foco_criticidade g foco t))
  = tier_table (frp_high foco) (frp_half foco)
      (cell_in (effective_biome g foco) SENSITIVE_BIOMES)
      (cell_in (effective_biome g foco) ["Amazônia"; "Pantanal"]).
Proof. apply label_by_table. Qed.

(** X2: the label returned is always a key of [RISK_LEVELS], and its
    value there is the level the classifier reached. *)
Theorem label_is_risk_level `{PyRuntime} `{Shapely}
    (g : biomes_gdf) (foco : gmap string cell) (t : list event) :
  risk_level (fst (fst (assess_foco_criticidade g foco t)))
  = Some (snd (fst (fst (assess_core g foco t)))).
Proof.
  rewrite assess_run. pose proof (assess_core_level g foco t) as Hlevel.
  destruct (assess_core g foco t) as [[[db nivel] razoes] t'].
  cbn [fst snd] in *.
  assert (Hcases : nivel = 0 \/ nivel = 1 \/ nivel = 2 \/ nivel = 3) by lia.
  destruct Hcases as [-> | [-> | [-> | ->]]]; reflexivity.
Qed.

Lemma determine_biome_ext `{Shapely} (g : biomes_gdf)
    (foco1 foco2 : gmap string cell) (t : list event) :
  (forall k, k <> "frp" -> foco1 !! k = foco2 !! k) ->
  determine_biome g foco1 t = determine_biome g foco2 t.
Proof.
  intros Hsame. unfold determine_biome, has_notna.
  rewrite (Hsame "bioma"), (Hsame "lat"), (Hsame "lon") by discriminate.
  reflexivity.
Qed.

Lemma same_but_frp (foco1 foco2 : gmap string cell) :
  delete "frp" foco1 = delete "frp" foco2 ->
  forall k, k <> "frp" -> foco1 !! k = foco2 !! k.
Proof.
  intros Hdel k Hk.
  rewrite <- (lookup_delete_ne foco1 "frp" k), <- (lookup_delete_ne foco2 "frp" k)
    by congruence.
  now rewrite Hdel.
Qed.

(** X3: for two records that differ in frp only, the one with the higher
    frp has the same or a higher tier, in the order of [RISK_LEVELS]. *)
Theorem tier_monotone_in_frp `{PyRuntime} `{Shapely}
    (g : biomes_gdf) (foco1 foco2 : gmap string cell) (t1 t2 : list event)
    (v1 v2 : pyfloat) :
  delete "frp" foco1 = delete "frp" foco2 ->
  frp_value foco1 = Some v1 -> frp_value foco2 = Some v2 ->
  float_ge v2 v1 = true ->
  exists n1 n2,
    risk_level (fst (fst (assess_foco_criticidade g foco1 t1))) = Some n1 /\
    risk_level (fst (fst (assess_foco_criticidade g foco2 t2))) = Some n2 /\
    n1 <= n2.
Proof.
  intros Hdel Hv1 Hv2 Hge. rewrite !label_by_table.
  assert (Heff : effective_biome g foco1 = effective_biome g foco2).
  { unfold effective_biome.
    now rewrite (determine_biome_ext g foco1 foco2 [] (same_but_frp _ _ Hdel)). }
  rewrite Heff. unfold frp_high, frp_half. rewrite Hv1, Hv2.
  assert (Hhigh : float_ge v1 RISK_FRP_THRESHOLD = true ->
                  float_ge v2 RISK_FRP_THRESHOLD = true)
    by (intros; now apply (float_ge_trans v2 v1)).
  assert (Hhalf : float_ge v1 RISK_FRP_THRESHOLD_half = true ->
                  float_ge v2 RISK_FRP_THRESHOLD_half = true)
    by (intros; now apply (float_ge_trans v2 v1)).
  destruct (float_ge v1 RISK_FRP_THRESHOLD);
    [rewrite (Hhigh eq_refl) | clear Hhigh];
    (destruct (float_ge v1 RISK_FRP_THRESHOLD_half);
       [rewrite (Hhalf eq_refl) | clear Hhalf]);
    repeat match goal with
           | |- context [float_ge ?a ?b] => destruct (float_ge a b)
           | |- context [cell_in ?a ?b] => destruct (cell_in a b)
           end;
    vm_compute; eexists _, _; (split; [reflexivity|]);
    (split; [reflexivity|]); discriminate.
Qed.

(** X4: a frp that is null, or a str that [float] rejects, is as good as
    no frp field: tier, reasons and spatial work are those of the record
    without it. *)
Theorem unusable_frp_as_absent `{PyRuntime} `{Shapely}
    (g : biomes_gdf) (foco : gmap string cell) (c : cell) (t : list event) :
  notna c = false \/ (exists s, c = CStr s /\ float_of_str s = None) ->
  assess_foco_criticidade g (<["frp" := c]> foco) t
  = assess_foco_criticidade g (delete "frp" foco) t.
Proof.
  intros Hc. rewrite !assess_run, !assess_core_run.
  rewrite (determine_biome_ext g (<["frp" := c]> foco) (delete "frp" foco) t).
  - assert (Hfrp : forall r, criterio_frp (<["frp" := c]> foco) r
                             = criterio_frp (delete "frp" foco) r).
    { intros r. unfold criterio_frp, has_notna.
      rewrite lookup_insert_eq, lookup_delete_eq. cbn [default].
      destruct Hc as [-> | (s & -> & Hs)]; [reflexivity|].
      cbn [notna float_of_cell id]. now rewrite Hs. }
    destruct (determine_biome g (delete "frp" foco) t) as [[db r0] t'].
    now rewrite Hfrp.
  - intros k Hk. rewrite lookup_insert_ne, lookup_delete_ne by congruence.
    reflexivity.
Qed.

Lemma criterio_bioma_reasons (db : cell) (nivel : Z) (razoes : list string) :
  snd (criterio_bioma db nivel razoes) = razoes \/
  exists b, db = CStr b /\
    existsb (is_substring (geo_reason b)) razoes = false /\
    snd (criterio_bioma db nivel razoes) = razoes ++ [sensitive_reason b].
Proof.
  unfold criterio_bioma. destruct (truthy db); [|now left].
  destruct db as [|f|b]; try now left.
  destruct (cell_in (CStr b) SENSITIVE_BIOMES); [|now left].
  destruct (existsb (is_substring (geo_reason b)) razoes) eqn:Hgeo;
    cbn [negb];
    destruct ((2 <=? nivel) && cell_in (CStr b) ["Amazônia"; "Pantanal"]);
    cbn [snd]; try now left.
  all: right; exists b; auto.
Qed.

Lemma geo_is_not_other (s b : string) (v : pyfloat) :
  geo_reason s <> sensitive_reason b /\ geo_reason s <> frp_reason v /\
  geo_reason s <> generic_reason /\ geo_reason s <> none_reason /\
  sensitive_reason b <> frp_reason v.
Proof. repeat split; cbn; discriminate. Qed.

(** X5: at most two reasons are returned, and the biome is explained
    once: when a geolocation sentence is among them, no sensitive-biome
    sentence is. *)
Theorem biome_explained_once `{PyRuntime} `{Shapely}
    (g : biomes_gdf) (foco : gmap string cell) (t : list event) :
  let razoes := snd (fst (assess_foco_criticidade g foco t)) in
  (length razoes <= 2)%nat /\
  forall s b, In (geo_reason s) razoes -> ~ In (sensitive_reason b) razoes.
Proof.
  cbn zeta. rewrite assess_run, assess_core_run.
  pose proof (determine_biome_reasons g foco t) as Hr0.
  destruct (determine_biome g foco t) as [[db r0] t'].
  specialize (Hr0 db r0 t' eq_refl). cbn [fst snd].
  rewrite criterio_frp_cases.
  set (n1 := fst (match frp_value foco with
                  | Some v => _ | None => _ end)).
  assert (Hr1 : snd (match frp_value foco with
                     | Some v =>
                         if float_ge v RISK_FRP_THRESHOLD
                         then (2, r0 ++ [frp_reason v])
                         else if float_ge v RISK_FRP_THRESHOLD_half
                              then (1, r0) else (0, r0)
                     | None => (0, r0)
                     end) = r0 \/
                exists v, snd (match frp_value foco with
                     | Some v =>
                         if float_ge v RISK_FRP_THRESHOLD
                         then (2, r0 ++ [frp_reason v])
                         else if float_ge v RISK_FRP_THRESHOLD_half
                              then (1, r0) else (0, r0)
                     | None => (0, r0)
                     end) = r0 ++ [frp_reason v]).
  { destruct (frp_value foco) as [v|]; [|now left].
    destruct (float_ge v RISK_FRP_THRESHOLD); [right; now exists v|].
    destruct (float_ge v RISK_FRP_THRESHOLD_half); now left. }
  set (r1 := snd (match frp_value foco with
                  | Some v => _ | None => _ end)) in *.
  clearbody r1 n1.
  destruct (criterio_bioma_reasons db n1 r1) as [Hr2 | (b0 & Hdb & Hgeo & Hr2)];
    rewrite Hr2; clear Hr2;
    set (n2 := fst (criterio_bioma db n1 r1)); clearbody n2.
  - destruct Hr0 as [-> | (s0 & -> & ->)];
      destruct Hr1 as [-> | [v ->]]; cbn [app fallback_reason].
    + split; [destruct (0 <? n2), (n2 =? 0); cbn; lia|].
      intros s b Hin. exfalso.
      destruct (geo_is_not_other s b Fnan) as (_ & _ & Hg & Hn & _).
      destruct (0 <? n2), (n2 =? 0); cbn in Hin; intuition congruence.
    + split; [cbn; lia|]. intros s b [Hin | []].
      destruct (geo_is_not_other s b v) as (_ & Hf & _). congruence.
    + split; [cbn; lia|]. intros s b _ [Hin | []].
      destruct (geo_is_not_other s0 b Fnan) as (Hs & _). congruence.
    + split; [cbn; lia|]. intros s b _ [Hin | [Hin | []]].
      * destruct (geo_is_not_other s0 b v) as (Hs & _). congruence.
      * destruct (geo_is_not_other s0 b v) as (_ & _ & _ & _ & Hf). congruence.
  - subst db.
    destruct Hr0 as [-> | (s0 & [= <-] & ->)];
      destruct Hr1 as [-> | [v ->]]; cbn [app fallback_reason].
    + split; [cbn; lia|]. intros s b [Hin | []].
      destruct (geo_is_not_other s b0 Fnan) as (Hs & _). congruence.
    + split; [cbn; lia|]. intros s b [Hin | [Hin | []]].
      * destruct (geo_is_not_other s b v) as (_ & Hf & _). congruence.
      * destruct (geo_is_not_other s b0 v) as (Hs & _). congruence.
    + cbn [existsb] in Hgeo. rewrite is_substring_refl in Hgeo. discriminate.
    + cbn [app existsb] in Hgeo. rewrite is_substring_refl in Hgeo.
      discriminate.
Qed.

(** X6: with a missing or empty biome index, a record without an
    explicit biome is classified by frp alone: Alto with the FRP sentence
    at or above the threshold, Médio with the generic sentence from half
    the threshold, Baixo with the no-criterion sentence otherwise. *)
Theorem frp_alone_without_index `{PyRuntime} `{Shapely}
    (g : biomes_gdf) (foco : gmap string cell) (t : list event) :
  gdf_unusable g = true ->
  has_notna foco "bioma" = false ->
  fst (assess_foco_criticidade g foco t)
  = match frp_value foco with
    | Some v =>
        if float_ge v RISK_FRP_THRESHOLD then ("Alto", [frp_reason v])
        else if float_ge v RISK_FRP_THRESHOLD_half
             then ("Médio", [generic_reason])
             else ("Baixo", [none_reason])
    | None => ("Baixo", [none_reason])
    end.
Proof.
  intros Hg Hb. rewrite assess_run, assess_core_run.
  assert (Hdet : exists t', determine_biome g foco t = (CNull, [], t')).
  { unfold determine_biome. rewrite Hb.
    destruct (has_notna foco "lat" && has_notna foco "lon"); [|now exists t].
    unfold bind, get_biome_from_lat_lon, tell, ret. rewrite Hg. eauto. }
  destruct Hdet as [t' ->]. rewrite criterio_frp_cases.
  destruct (frp_value foco) as [v|]; [|reflexivity].
  destruct (float_ge v RISK_FRP_THRESHOLD); [reflexivity|].
  destruct (float_ge v RISK_FRP_THRESHOLD_half); reflexivity.
Qed.

(** * Loading the biome index *)

(** X7: [load_biomes_data] always leaves an index in the global, and an
    index that is there, even the empty one of a failed load, is never
    loaded again. *)
Theorem load_biomes_data_once `{GeoPandas} (current : biomes_gdf) :
  load_biomes_data current <> None /\
  load_biomes_data (load_biomes_data current) = load_biomes_data current.
Proof.
  assert (Hsome : exists rows, load_biomes_data current = Some rows).
  { unfold load_biomes_data. destruct current as [rows|]; [eauto|].
    destruct (negb (path_exists _)); [eauto|].
    destruct (read_file _) as [f|]; [|eauto].
    destruct (in_wgs84 f) as [f'|]; [|eauto].
    case_bool_decide; eauto. }
  destruct Hsome as [rows ->]. split; [discriminate | reflexivity].
Qed.

(** X8: when the first load fails (file missing, unreadable, not
    reprojectable, or without the [nom_bioma] column) the index is empty,
    and every lookup answers None without testing a polygon. *)
Theorem failed_load_gives_unknown `{GeoPandas}
    (lat lon : cell) (t : list event) :
  load_fails ->
  load_biomes_data None = Some [] /\
  get_biome_from_lat_lon (load_biomes_data None) lat lon t
  = (None, t ++ [Lookup lat lon]).
Proof.
  intros Hfail.
  assert (Hempty : load_biomes_data None = Some []).
  { unfold load_biomes_data, load_fails, biomes_full_path in *.
    destruct Hfail as [-> | [Hread | [(f & Hread & Hcrs) | (f & f' & Hread & Hcrs & Hcol)]]];
      [reflexivity | | |];
      destruct (negb (path_exists _)); try reflexivity; rewrite Hread;
      try reflexivity; rewrite Hcrs; try reflexivity.
    now rewrite bool_decide_eq_false_2. }
  split; [assumption|]. rewrite Hempty. reflexivity.
Qed.

(** * Further properties of the fetchers *)

Lemma written_whole (chunks : list (list Byte.byte)) :
  Forall (fun c => c <> []) chunks ->
  written ((fun c => Chunk c Written) <$> chunks) = concat chunks /\
  loop_error ((fun c => Chunk c Written) <$> chunks) = None.
Proof.
  induction 1 as [|c chunks Hc _ [IHw IHe]]; [split; reflexivity|].
  destruct c as [|b c]; [congruence|].
  cbn [fmap list_fmap written loop_error concat].
  change (list_fmap _ _ ?f chunks) with (f <$> chunks).
  rewrite IHw, IHe. split; reflexivity.
Qed.

(** X9: when the remote end serves non-empty chunks to the end and the
    disk takes them, each fetch function returns the local path and the
    file there holds the chunks in order, whatever it held before. *)
Theorem complete_transfer_stores_bytes (net : network) (status : Z)
    (chunks : list (list Byte.byte)) :
  status < 400 ->
  Forall (fun c => c <> []) chunks ->
  (forall (d : date) (w : world),
     net (daily_url d)
     = GetResponse status true ((fun c => Chunk c Written) <$> chunks) ->
     fst (fetch_daily_fire_csv net d w) = Path (daily_path d) /\
     files (snd (fetch_daily_fire_csv net d w)) !! daily_path d
     = Some (concat chunks)) /\
  (forall (t : datetime) (w : world),
     minute t mod 10 = 0 ->
     net (slot_url t)
     = GetResponse status true ((fun c => Chunk c Written) <$> chunks) ->
     fst (fetch_10min_fire_csv net t w) = Path (slot_path t) /\
     files (snd (fetch_10min_fire_csv net t w)) !! slot_path t
     = Some (concat chunks)).
Proof.
  intros Hstatus Hchunks.
  destruct (written_whole chunks Hchunks) as [Hw He].
  assert (Hok : (400 <=? status) = false) by (apply Z.leb_gt; lia).
  split.
  - intros d w Hnet. rewrite fetch_daily_run, Hnet.
    unfold fetched, files_after. cbn [fst snd files transfer_error file_opened
      body_of]. rewrite Hok, He, Hw. cbn [negb handle].
    split; [reflexivity | apply lookup_insert_eq].
  - intros t w Hmin Hnet. rewrite fetch_10min_run, Hnet by assumption.
    unfold fetched, files_after. cbn [fst snd files transfer_error file_opened
      body_of]. rewrite Hok, He, Hw. cbn [negb handle].
    split; [reflexivity | apply lookup_insert_eq].
Qed.


Lemma files_after_twice (o : get_outcome) (path : string)
    (fs : gmap string (list Byte.byte)) :
  files_after o path (files_after o path fs) = files_after o path fs.
Proof.
  unfold files_after. destruct (file_opened o); [|reflexivity].
  apply insert_insert_eq.
Qed.

(** X11: fetching the same day again from an unchanged remote end gives
    the same result and leaves the same files as the first fetch did. *)
Theorem refetch_changes_nothing (net : network) (d : date) (w : world) :
  let first := fetch_daily_fire_csv net d w in
  let second := fetch_daily_fire_csv net d (snd first) in
  fst second = fst first /\ files (snd second) = files (snd first).
Proof.
  cbn zeta. rewrite !fetch_daily_run. unfold fetched. cbn [fst snd files].
  split; [reflexivity | apply files_after_twice].
Qed.

(** * Further properties of the slot enumeration *)

(** X12: the slots tried for a day are 144, they are exactly the times of
    that day with an hour from 0 to 23 and a minute among 0, 10, ..., 50,
    and their local paths are pairwise distinct. *)
Theorem day_slots_are_the_144_slots (d : date) :
  length (day_slots d) = 144%nat /\
  NoDup (slot_path <$> day_slots d) /\
  forall t : datetime,
    t ∈ day_slots d <->
    date_of t = d /\ 0 <= hour t < 24 /\ 0 <= minute t < 60 /\
    minute t mod 10 = 0.
Proof.
  split; [reflexivity|]. split.
  - rewrite slot_paths_tails.
    apply (NoDup_fmap_2 (slot_path_of_tail d)), slot_tails_NoDup.
  - intros t. unfold day_slots. split.
    + intros Ht.
      apply list_elem_of_bind in Ht as (h & Ht & Hh).
      apply list_elem_of_bind in Ht as (m & Ht & Hm).
      apply list_elem_of_singleton in Ht as ->. cbn [date_of hour minute].
      apply list_elem_of_fmap in Hh as (i & -> & Hi).
      apply list_elem_of_fmap in Hm as (k & -> & Hk).
      apply elem_of_seq in Hi, Hk.
      split; [reflexivity|]. split; [lia|]. split; [lia|].
      rewrite Z.mul_comm. apply Z_mod_mult.
    + intros (Hd & Hh & Hm & Hmod). destruct t as [d' h m].
      cbn [date_of hour minute] in *. subst d'.
      apply list_elem_of_bind. exists h. split.
      * apply list_elem_of_bind. exists m. split; [apply list_elem_of_here|].
        apply list_elem_of_fmap. exists (Z.to_nat (m / 10)). split.
        -- apply Z.mod_divide in Hmod as [q ->]; [|lia].
           rewrite Z.div_mul by lia. lia.
        -- apply elem_of_seq.
           assert (m / 10 < 6) by (apply Z.div_lt_upper_bound; lia).
           assert (0 <= m / 10) by (apply Z.div_pos; lia). lia.
      * apply list_elem_of_fmap. exists (Z.to_nat h). split; [lia|].
        apply elem_of_seq. lia.
Qed.



Lemma gathered_sublist `{Pandas} (net : network) (w : world)
    (ts : list datetime) :
  omap path_of
    (filter (fun r => has_data w r = true)
       ((fun t => handle (slot_path t) (transfer_error (net (slot_url t))))
          <$> ts))
  `sublist_of` slot_path <$> ts.
Proof.
  induction ts as [|t ts IH]; [constructor|].
  rewrite !fmap_cons, filter_cons.
  destruct (decide (has_data w (handle (slot_path t)
                       (transfer_error (net (slot_url t)))) = true))
    as [Hd | Hd].
  - destruct (transfer_error (net (slot_url t))) as [e|];
      [destruct e; discriminate Hd|].
    cbn [handle omap list_omap path_of]. now apply sublist_skip.
  - now apply sublist_cons.
Qed.

(** X14: the paths returned for a day are in the order of the slots of
    the day, each at most once: they are a sublist of the 144 local
    paths. *)
Theorem fetch_all_in_slot_order `{Pandas}
    (net : network) (d : date) (w : world) :
  fst (fetch_all_10min_slots_for_day net d w)
    `sublist_of` slot_path <$> day_slots d /\
  NoDup (fst (fetch_all_10min_slots_for_day net d w)) /\
  (length (fst (fetch_all_10min_slots_for_day net d w)) <= 144)%nat.
Proof.
  assert (Hsub : fst (fetch_all_10min_slots_for_day net d w)
                   `sublist_of` slot_path <$> day_slots d).
  { unfold fetch_all_10min_slots_for_day, bind.
    assert (Hmin : Forall (fun t => minute t mod 10 = 0) (day_slots d)).
    { apply Forall_forall. intros t Ht. now apply day_slots_spec in Ht. }
    destruct (mapM_fetch_10min_run net (day_slots d) Hmin w) as [Hres _].
    destruct (mapM (fetch_10min_fire_csv net) (day_slots d) w) as [results w1].
    cbn [fst snd] in *. subst results. apply gathered_sublist. }
  split; [assumption|]. split.
  - eapply sublist_NoDup; [apply slot_paths_NoDup | eassumption].
  - apply sublist_length in Hsub. now rewrite length_fmap in Hsub.
Qed.

(** * Further properties of the enrichment *)

Lemma mapM_answers {S A B} (f : A -> State S B) (h : A -> B) :
  (forall x s, fst (f x s) = h x) ->
  forall xs s, fst (mapM f xs s) = h <$> xs.
Proof.
  intros Hf. induction xs as [|x xs IH]; intros s; [reflexivity|].
  cbn [mapM]. unfold bind. pose proof (Hf x s) as Hx.
  destruct (f x s) as [y s1]. specialize (IH s1).
  destruct (mapM f xs s1) as [ys s2]. cbn [fst ret] in *.
  now rewrite Hx, IH.
Qed.

Lemma assign_column_rows {V} (c : string) (h : gmap string V -> V)
    (df : frame V) :
  rows (assign_column c (h <$> rows df) df)
  = (fun r => <[c := h r]> r) <$> rows df.
Proof.
  cbn [assign_column rows]. induction (rows df) as [|r rs IH]; [reflexivity|].
  cbn. now rewrite <- IH.
Qed.

Lemma ensured_has (c : string) (df : frame cell) :
  c ∈ ["frp"; "lat"; "lon"] -> c ∈ columns (ensured df).
Proof.
  unfold ensured. rewrite !elem_of_cons. intros [-> | [-> | [-> | Hnil]]];
    [| | | inversion Hnil].
  - apply columns_ensure_column. left. apply columns_ensure_column. left.
    apply columns_ensure_column.
    destruct (decide ("frp" ∈ columns df)); [now left | now right].
  - apply columns_ensure_column. left. apply columns_ensure_column.
    destruct (decide ("lat" ∈ columns (ensure_column "frp" df)));
      [now left | now right].
  - apply columns_ensure_column.
    destruct (decide ("lon" ∈ columns (ensure_column "lat"
                                          (ensure_column "frp" df))));
      [now left | now right].
Qed.

Lemma geo_answer `{Shapely} (g : biomes_gdf) (r : gmap string cell)
    (row : gmap string ecell) (t : list event) :
  gdf_unusable g = false ->
  scalar (row !! "lat") = default CNull (r !! "lat") ->
  scalar (row !! "lon") = default CNull (r !! "lon") ->
  fst (determined_biome_geo g row t) = lookup_result g r.
Proof.
  intros Hg Hlat Hlon. unfold determined_biome_geo. rewrite Hlat, Hlon.
  destruct (notna (default CNull (r !! "lat"))
            && notna (default CNull (r !! "lon"))) eqn:Hna.
  - apply lookup_result_run.
  - unfold lookup_result, get_biome_from_lat_lon, bind, tell, ret, isna.
    rewrite Hg. apply andb_false_iff in Hna as [-> | ->]; cbn [negb orb fst];
      [reflexivity | now rewrite orb_true_r].
Qed.

Lemma zip_with_fmap_same {X A B C} (f : A -> B -> C) (k : X -> A) (v : X -> B)
    (xs : list X) :
  zip_with f (k <$> xs) (v <$> xs) = (fun x => f (k x) (v x)) <$> xs.
Proof. induction xs as [|x xs IH]; [reflexivity|]. cbn. now rewrite <- IH. Qed.

Lemma determined_biome_geo_answer `{Shapely} (g : biomes_gdf)
    (row : gmap string ecell) (t u : list event) :
  fst (determined_biome_geo g row t) = fst (determined_biome_geo g row u).
Proof.
  unfold determined_biome_geo.
  destruct (notna _ && notna _); [apply get_biome_answer | reflexivity].
Qed.

Lemma scalar_kept (r : gmap string cell) (c : string) (base : gmap string ecell) :
  base !! c = Keep <$> (r !! c) -> scalar (base !! c) = default CNull (r !! c).
Proof. intros ->. now destruct (r !! c). Qed.

(** The frame returned for a non-empty input, in closed form. *)
Lemma aplica_run `{PyRuntime} `{Shapely} (g : biomes_gdf) (df : frame cell)
    (t : list event) :
  df_empty df = false ->
  fst (aplica_avaliacao_risco_df g df t)
  = (ensured df,
     {| columns :=
          (if gdf_unusable g then id else add_column "determined_biome_geo")
            (add_column "razoes_criticidade"
               (add_column "criticidade" (columns (ensured df))));
        rows := enriched_row g <$> rows (ensured df) |}).
Proof.
  intros Hne. unfold aplica_avaliacao_risco_df. rewrite Hne.
  unfold bind, ret. fold (ensured df).
  set (h := fun r : gmap string cell => fst (assess_foco_criticidade g r [])).
  pose proof (mapM_answers (assess_foco_criticidade g) h
                (fun r s => assess_answer g r s []) (rows (ensured df)) t)
    as Hav.
  destruct (mapM (assess_foco_criticidade g) (rows (ensured df)) t)
    as [av t1]. cbn [fst] in Hav. subst av.
  set (base := fun r : gmap string cell =>
         <["razoes_criticidade" := Reasons (snd (h r))]>
           (<["criticidade" := Keep (CStr (fst (h r)))]> (Keep <$> r))).
  set (out2 := assign_column "razoes_criticidade" _ _).
  assert (Hrows2 : rows out2 = base <$> rows (ensured df)).
  { subst out2. cbn [assign_column map_frame rows].
    rewrite <- !list_fmap_compose.
    rewrite (zip_with_fmap_same _ (fun r : gmap string cell => Keep <$> r)).
    rewrite (zip_with_fmap_same
               (fun (r : gmap string ecell) v => <["razoes_criticidade" := v]> r)).
    reflexivity. }
  assert (Hcols2 : columns out2
                   = add_column "razoes_criticidade"
                       (add_column "criticidade" (columns (ensured df))))
    by reflexivity.
  destruct (gdf_unusable g) eqn:Hg; cbn [negb].
  - cbn [fst]. f_equal. destruct out2 as [cols2 rows2].
    cbn [columns rows] in *. subst. f_equal.
    apply list_fmap_ext. intros i r _. unfold enriched_row. now rewrite Hg.
  - assert (Hhas : has_column out2 "lat" && has_column out2 "lon" = true).
    { unfold has_column. rewrite Hcols2.
      rewrite !bool_decide_eq_true_2; [reflexivity | |];
        apply elem_of_add_column; left; apply elem_of_add_column; left;
        apply ensured_has; rewrite !elem_of_cons; tauto. }
    rewrite Hhas.
    set (h2 := fun row : gmap string ecell => fst (determined_biome_geo g row [])).
    pose proof (mapM_answers (determined_biome_geo g) h2
                  (fun row s => determined_biome_geo_answer g row s [])
                  (rows out2) t1) as Hgeo.
    destruct (mapM (determined_biome_geo g) (rows out2) t1) as [geo t2].
    cbn [fst] in *. subst geo. f_equal.
    unfold assign_column at 1. rewrite Hcols2, Hrows2. f_equal.
    rewrite <- !list_fmap_compose.
    rewrite (zip_with_fmap_same
               (fun (r : gmap string ecell) v => <["determined_biome_geo" := v]> r)).
    apply list_fmap_ext. intros i r _. unfold enriched_row. rewrite Hg.
    cbn [compose]. fold (h r). fold (base r). f_equal. f_equal.
    subst h2. cbn beta. apply geo_answer; [assumption | |];
      apply scalar_kept; subst base; cbn beta;
      rewrite !lookup_insert_ne by discriminate; apply lookup_fmap.
Qed.

(** X15: for a non-empty frame, the caller's frame comes back with the
    missing ones of [frp], [lat], [lon] added, and each row of the
    returned frame is the input row with its own tier and reasons, and
    with the biome the lookup gives for its coordinates when the index is
    usable: no row depends on another. *)
Theorem aplica_row_by_row `{PyRuntime} `{Shapely} (g : biomes_gdf)
    (df : frame cell) (t : list event) :
  df_empty df = false ->
  fst (fst (aplica_avaliacao_risco_df g df t)) = ensured df /\
  rows (snd (fst (aplica_avaliacao_risco_df g df t)))
  = enriched_row g <$> rows (ensured df).
Proof. intros Hne. rewrite (aplica_run g df t Hne). split; reflexivity. Qed.

Lemma ensured_columns (c : string) (df : frame cell) :
  c ∈ columns (ensured df) -> c ∈ columns df \/ c ∈ ["frp"; "lat"; "lon"].
Proof.
  unfold ensured. intros Hc.
  apply columns_ensure_column in Hc as [Hc | [-> _]];
    [|right; apply coordinate_columns; tauto].
  apply columns_ensure_column in Hc as [Hc | [-> _]];
    [|right; apply coordinate_columns; tauto].
  apply columns_ensure_column in Hc as [Hc | [-> _]];
    [now left | right; apply coordinate_columns; tauto].
Qed.

(** X16: when the biome index is missing or empty, the frame returned for
    a non-empty input without a [determined_biome_geo] column has the
    columns the PyDeck block checks for but not [determined_biome_geo],
    so its column selection raises KeyError; with a usable index the
    selection succeeds. *)
Theorem pydeck_needs_the_index `{PyRuntime} `{Shapely} (g : biomes_gdf)
    (df : frame cell) (t : list event) :
  df_empty df = false ->
  "determined_biome_geo" ∉ columns df ->
  let out := snd (fst (aplica_avaliacao_risco_df g df t)) in
  (gdf_unusable g = true -> pydeck_data out = KeyError) /\
  (gdf_unusable g = false -> exists shown, pydeck_data out = Shown shown).
Proof.
  intros Hne Hgeo. cbn zeta. rewrite (aplica_run g df t Hne). cbn [snd].
  set (base := add_column "razoes_criticidade"
                 (add_column "criticidade" (columns (ensured df)))).
  assert (Hin : forall c, c ∈ ["frp"; "lat"; "lon"; "criticidade"] -> c ∈ base).
  { intros c Hc. subst base. rewrite !elem_of_cons in Hc.
    apply elem_of_add_column. left. apply elem_of_add_column.
    destruct Hc as [-> | [-> | [-> | [-> | Hnil]]]];
      [left | left | left | now right | inversion Hnil];
      apply ensured_has, coordinate_columns; tauto. }
  assert (Hno : "determined_biome_geo" ∉ base).
  { subst base. intros Hc.
    apply elem_of_add_column in Hc as [Hc | Hc]; [|discriminate Hc].
    apply elem_of_add_column in Hc as [Hc | Hc]; [|discriminate Hc].
    apply ensured_columns in Hc as [Hc | Hc]; [contradiction|].
    rewrite !elem_of_cons in Hc.
    destruct Hc as [Hc | [Hc | [Hc | Hc]]]; try discriminate Hc.
    inversion Hc. }
  split; intros Hg; rewrite Hg; unfold pydeck_data, select_columns, has_column;
    cbn [columns id forallb].
  - rewrite !(bool_decide_eq_true_2 (_ ∈ base)) by (apply Hin; set_solver).
    rewrite (bool_decide_eq_false_2 ("determined_biome_geo" ∈ base)) by assumption.
    reflexivity.
  - rewrite !bool_decide_eq_true_2;
      try (apply elem_of_add_column; left; apply Hin; set_solver);
      try (apply elem_of_add_column; now right).
    cbn [andb]. eauto.
Qed.

(** * The alert tables *)

Lemma filter_fmap_bool {A B} (f : A -> B) (P : B -> bool) (Q : A -> bool)
    (l : list A) :
  (forall x, P (f x) = Q x) ->
  filter (fun y => P y = true) (f <$> l)
  = f <$> filter (fun x => Q x = true) l.
Proof.
  intros HPQ. induction l as [|x l IH]; [reflexivity|].
  rewrite fmap_cons, !filter_cons, IH.
  destruct (decide (P (f x) = true)) as [Hp | Hp],
           (decide (Q x = true)) as [Hq | Hq];
    try reflexivity; rewrite HPQ in Hp; contradiction.
Qed.

Lemma enriched_criticidade `{PyRuntime} `{Shapely} (g : biomes_gdf)
    (r : gmap string cell) :
  enriched_row g r !! "criticidade"
  = Some (Keep (CStr (fst (fst (assess_foco_criticidade g r []))))).
Proof.
  unfold enriched_row. destruct (gdf_unusable g);
    rewrite !lookup_insert_ne by discriminate; apply lookup_insert_eq.
Qed.

Lemma default_alert_is_high_frp `{PyRuntime} `{Shapely} (g : biomes_gdf)
    (r : gmap string cell) :
  isin default_risk_levels (enriched_row g r !! "criticidade") = frp_high r.
Proof.
  rewrite enriched_criticidade, label_by_table. cbn [isin].
  unfold tier_table, default_risk_levels.
  destruct (frp_high r).
  - destruct (cell_in (effective_biome g r) ["Amazônia"; "Pantanal"]);
      reflexivity.
  - destruct (frp_half r || cell_in (effective_biome g r) SENSITIVE_BIOMES);
      reflexivity.
Qed.

(** X17: with the default selection of risk levels (Crítico and Alto),
    the alert rows of an assessed non-empty frame are, in order, the rows
    whose frp parses to a value at or above the threshold. *)
Theorem default_alerts_are_high_frp `{PyRuntime} `{Shapely} (g : biomes_gdf)
    (df : frame cell) (t : list event) :
  df_empty df = false ->
  rows (alert_rows default_risk_levels
          (snd (fst (aplica_avaliacao_risco_df g df t))))
  = enriched_row g <$> filter (fun r => frp_high r = true) (rows (ensured df)).
Proof.
  intros Hne. rewrite (aplica_run g df t Hne). cbn [snd alert_rows rows].
  apply (filter_fmap_bool (enriched_row g)
           (fun r' => isin default_risk_levels (r' !! "criticidade"))).
  apply default_alert_is_high_frp.
Qed.

Lemma forallb_filter {A} (p : A -> bool) (l : list A) :
  forallb p (List.filter p l) = true.
Proof.
  induction l as [|x l IH]; [reflexivity|]. cbn.
  destruct (p x) eqn:Hp; [cbn; now rewrite Hp | assumption].
Qed.

(** X18: an alert section never fails on a missing column, whatever frame
    the session holds and whatever levels are selected: only the columns
    present are selected; when it shows a table, the count is the number
    of rows whose [criticidade] is among the selected levels. *)
Theorem alerts_section_never_fails (selected : list string)
    (assessed : option (frame ecell)) :
  alerts_section selected assessed <> AlertKeyError /\
  forall count table,
    alerts_section selected assessed = AlertTable count table ->
    exists df, assessed = Some df /\
      count = length (filter (fun r : gmap string ecell =>
                                isin selected (r !! "criticidade") = true)
                             (rows df)) /\
      (0 < count)%nat.
Proof.
  unfold alerts_section. destruct assessed as [df|]; [|split; discriminate].
  destruct (df_empty df); [split; discriminate|].
  destruct (has_column df "criticidade"); [|split; discriminate].
  destruct (df_empty (alert_rows selected df)) eqn:Hempty; [split; discriminate|].
  unfold select_columns. rewrite forallb_filter. split; [discriminate|].
  intros count table [= <- _]. exists df. split; [reflexivity|].
  split; [reflexivity|].
  unfold df_empty in Hempty. cbn [alert_rows rows columns] in *.
  destruct (columns df); [discriminate|].
  destruct (filter _ (rows df)); [discriminate | cbn; lia].
Qed.

(** * Further properties of the aggregation *)

(** X19: [load_data] is memoised on the path alone: once a path has been
    loaded, a later load of it returns the first answer whatever was done
    to local storage in between, a new download of the file included. *)
Theorem load_data_keeps_first_answer `{Loader} {A} (csv_path : string)
    (between : State world A) (s : app_state) :
  let first := load_data csv_path s in
  let later := load_data csv_path (snd (on_disk between (snd first))) in
  fst later = fst first.
Proof.
  cbn zeta.
  assert (Hmemo : cache (snd (load_data csv_path s)) !! csv_path
                  = Some (fst (load_data csv_path s))).
  { unfold load_data. destruct (cache s !! csv_path) as [r|] eqn:Hc;
      cbn [fst snd cache]; [assumption | apply lookup_insert_eq]. }
  destruct (load_data csv_path s) as [r s1]. cbn [fst snd] in *.
  unfold on_disk. destruct (between (disk s1)) as [a w]. cbn [snd].
  unfold load_data. cbn [cache]. now rewrite Hmemo.
Qed.

(** X20: for a range whose end date is before its start date, the daily
    path issues no request, loads nothing and returns None. *)
Theorem inverted_range_gives_no_data `{Loader} (net : network)
    (start_date end_date : date) (s : app_state) :
  toordinal end_date < toordinal start_date ->
  fetch_data_for_range net start_date end_date s = (NoData, s).
Proof.
  intros Hlt.
  unfold fetch_data_for_range, daily_frames, days_of_range, bind, on_disk.
  replace (Z.to_nat (toordinal end_date - toordinal start_date + 1))
    with 0%nat by lia.
  destruct s as [w memo]. reflexivity.
Qed.







(** * The further statements at work on the sample data *)

Lemma monotone_witness :
  delete "frp" foco_medium = delete "frp" foco_high /\
  frp_value foco_medium = Some (Ffin (inject_Z 40)) /\
  frp_value foco_high = Some (Ffin (inject_Z 80)) /\
  float_ge (Ffin (inject_Z 80)) (Ffin (inject_Z 40)) = true /\
  exists n1 n2,
    risk_level (fst (fst (assess_foco_criticidade sample_gdf foco_medium [])))
    = Some n1 /\
    risk_level (fst (fst (assess_foco_criticidade sample_gdf foco_high [])))
    = Some n2 /\
    n1 <= n2.
Proof.
  assert (Hdel : delete "frp" foco_medium = delete "frp" foco_high)
    by (vm_compute; reflexivity).
  assert (Hv1 : frp_value foco_medium = Some (Ffin (inject_Z 40)))
    by (vm_compute; reflexivity).
  assert (Hv2 : frp_value foco_high = Some (Ffin (inject_Z 80)))
    by (vm_compute; reflexivity).
  refine (conj Hdel (conj Hv1 (conj Hv2 (conj eq_refl _)))).
  exact (tier_monotone_in_frp sample_gdf foco_medium foco_high [] [] _ _
           Hdel Hv1 Hv2 eq_refl).
Defined.

Lemma unusable_frp_witness :
  (notna (CStr "n/d") = false \/
   exists s, CStr "n/d" = CStr s /\ float_of_str s = None) /\
  assess_foco_criticidade sample_gdf (<["frp" := CStr "n/d"]> foco_explicit) []
  = assess_foco_criticidade sample_gdf (delete "frp" foco_explicit) [].
Proof.
  assert (Hc : notna (CStr "n/d") = false \/
               exists s, CStr "n/d" = CStr s /\ float_of_str s = None)
    by (right; exists "n/d"; split; reflexivity).
  refine (conj Hc _).
  exact (unusable_frp_as_absent sample_gdf foco_explicit (CStr "n/d") [] Hc).
Defined.

Lemma frp_alone_witness :
  gdf_unusable (None : biomes_gdf) = true /\
  has_notna foco_A "bioma" = false /\
  fst (assess_foco_criticidade None foco_A [])
  = ("Alto", ["FRP elevado (80.00 MW >= 75.0 MW)"]).
Proof.
  assert (Hb : has_notna foco_A "bioma" = false) by (vm_compute; reflexivity).
  refine (conj eq_refl (conj Hb _)).
  rewrite (frp_alone_without_index None foco_A [] eq_refl Hb).
  vm_compute. reflexivity.
Defined.

Lemma failed_load_witness :
  load_fails /\
  get_biome_from_lat_lon (load_biomes_data None) (num (-3)) (num (-60)) []
  = (None, [Lookup (num (-3)) (num (-60))]).
Proof.
  assert (Hfail : load_fails) by (left; reflexivity).
  refine (conj Hfail _).
  exact (proj2 (failed_load_gives_unknown (num (-3)) (num (-60)) [] Hfail)).
Defined.

Lemma complete_transfer_witness :
  200 < 400 /\
  Forall (fun c => c <> []) two_chunks /\
  fst (fetch_daily_fire_csv serving_net sample_day empty_world)
  = Path (daily_path sample_day) /\
  files (snd (fetch_daily_fire_csv serving_net sample_day empty_world))
    !! daily_path sample_day
  = Some (concat two_chunks).
Proof.
  assert (Hs : 200 < 400) by lia.
  assert (Hc : Forall (fun c => c <> []) two_chunks)
    by (repeat constructor; discriminate).
  refine (conj Hs (conj Hc _)).
  exact (proj1 (complete_transfer_stores_bytes serving_net 200 two_chunks Hs Hc)
           sample_day empty_world eq_refl).
Defined.

Lemma row_by_row_witness :
  df_empty frame_A = false /\
  rows (snd (fst (aplica_avaliacao_risco_df sample_gdf frame_A [])))
  = enriched_row sample_gdf <$> rows (ensured frame_A).
Proof.
  refine (conj eq_refl _).
  exact (proj2 (aplica_row_by_row sample_gdf frame_A [] eq_refl)).
Defined.

Lemma pydeck_witness :
  df_empty frame_A = false /\
  ("determined_biome_geo" ∉ columns frame_A) /\
  pydeck_data (snd (fst (aplica_avaliacao_risco_df (Some []) frame_A [])))
  = KeyError.
Proof.
  assert (Hg : "determined_biome_geo" ∉ columns frame_A)
    by (apply (bool_decide_unpack _); vm_compute; reflexivity).
  refine (conj eq_refl (conj Hg _)).
  exact (proj1 (pydeck_needs_the_index (Some []) frame_A [] eq_refl Hg) eq_refl).
Defined.

Lemma default_alerts_witness :
  df_empty frame_A = false /\
  rows (alert_rows default_risk_levels
          (snd (fst (aplica_avaliacao_risco_df sample_gdf frame_A []))))
  = enriched_row sample_gdf
      <$> filter (fun r => frp_high r = true) (rows (ensured frame_A)).
Proof.
  refine (conj eq_refl _).
  exact (default_alerts_are_high_frp sample_gdf frame_A [] eq_refl).
Defined.

Lemma inverted_range_witness :
  toordinal day_before < toordinal sample_day /\
  fetch_data_for_range serving_net sample_day day_before empty_state
  = (NoData, empty_state).
Proof.
  assert (Hlt : toordinal day_before < toordinal sample_day)
    by (vm_compute; reflexivity).
  refine (conj Hlt _).
  exact (inverted_range_gives_no_data serving_net sample_day day_before
           empty_state Hlt).
Defined.

